(** * ChemCalc: the kinetic integrator of [src/ChemCalc/Kinetic.py]

    A shallow embedding of the class [KineticalCalculator] and the
    properties of its step-delta computation, its time-stepping loop, its
    policy for concentrations that would drop below zero and its
    checkpoint recording.

    Numbers.  The Python code computes on whatever numeric objects the
    environment hands over, in practice on floats.  The lines of the source
    are embedded twice.

    The first embedding computes on exact rationals ([Q]), as the code does
    on [fractions.Fraction]: [+], [-], [*], [/] and the comparisons are the
    exact ones, [int(x)] truncates toward zero, equality of numbers is
    [Qeq] ([==]), and the power operator [**] is a parameter ([pow]) that
    raises on a zero base under a negative exponent only.  It carries the
    properties that depend neither on rounding nor on the outcome of [**]:
    the exceptions raised before the first update, the policy for
    candidates that are not positive, what a run writes, runs of networks
    that do not change the concentrations, and the identity of the lists in
    the result.

    The second embedding (module [Binary64]) computes on IEEE 754 binary64
    floats, which is what Python's [float] is: sums, products and quotients
    are rounded, [int(time/self.accuracy+1)] and the local [t] are what the
    machine makes of them, and [**] is a parameter with all the outcomes
    that it has on floats: a float, a complex number, [ZeroDivisionError]
    or [OverflowError].  It carries the properties of the step-delta
    computation, of the number of iterations, of the checkpoint recording
    and of the order of the result, and the invariant of clamping.

    Effects.  A method of the class is a function from the object [self]
    to an outcome (a value or a raised exception) and the object as the
    method left it; an exception raised in the middle of a loop leaves the
    writes made before it in place.  Plotting and the keyboard loop
    ([plot = True]) are not modelled. *)

From Stdlib Require Import QArith Qround ZArith Lia Lqa String.
From Stdlib Require Import Floats.
From stdpp Require Import base list sorting gmap.

(** A decimal literal of a float denotes the nearest binary64 value, as it
    does in Python. *)
Set Warnings "-inexact-float".

Local Open Scope Q_scope.

(** ** Exceptions and outcomes *)

Inductive PyError : Type :=
  | NameError
  | ValueError
  | IndexError
  | ZeroDivisionError
  | OverflowError
  | TypeError.

Inductive result (A : Type) : Type :=
  | Raise (e : PyError)
  | Ok (a : A).

Arguments Raise {A} e.
Arguments Ok {A} a.

Definition rbind {A B : Type} (m : result A) (f : A -> result B) : result B :=
  match m with
  | Raise e => Raise e
  | Ok a => f a
  end.

Declare Scope py_scope.
Delimit Scope py_scope with py.

Notation "'let!' x ':=' m 'in' k" := (rbind m (fun x => k))
  (at level 10, x pattern, m at level 100, k at level 200) : py_scope.

Local Open Scope py_scope.

(** [xs[i]] on a Python list, for a non-negative [i]. *)
Definition index {A : Type} (xs : list A) (i : nat) : result A :=
  match xs !! i with
  | Some x => Ok x
  | None => Raise IndexError
  end.


(** ** Numbers *)

(** [x < y] *)
Definition Qltb (x y : Q) : bool := negb (Qle_bool y x).

(** [x / y], the exact quotient. *)
Definition py_div (x y : Q) : result Q :=
  if Qeq_bool y 0 then Raise ZeroDivisionError else Ok (x / y).

(** [int(x)] of an exact number: truncation toward zero. *)
Definition py_int (x : Q) : Z := Z.quot (Qnum x) (Zpos (Qden x)).

(** [range(n)] *)
Definition range (n : Z) : list nat := seq 0 (Z.to_nat n).

(** A zero base under a negative exponent: the pair on which [**] raises. *)
Definition singular (c e : Q) : bool := Qeq_bool c 0 && Qltb e 0.

(** ** The environment and the calculator *)

(** The two-element lists [[forward, backward]] of the tables are pairs;
    [Forward] is the subscript [[0]] and [Backward] the subscript [[1]]. *)
Inductive side : Type := Forward | Backward.

Definition pick {A : Type} (s : side) (p : A * A) : A :=
  match s with
  | Forward => fst p
  | Backward => snd p
  end.

(** Modelled from the spec: the class [Enviroment] of the module [_general]
    is not part of the sources; the record has the attributes that
    [KineticalCalculator] reads, typed as the spec's ReactionNetworkView.
    [env_len] is [len(enviroment)] and [compounds_concentration] holds the
    ["concentration"] entry of each compound. *)
Record Enviroment : Type := {
  env_rate_constants : list (Q * Q);
  env_reaction_by_index : list (list nat * list nat);
  env_stoichiometric_coefficient_by_reaction : list (list Q * list Q);
  env_rate_dependency_by_reaction : list (list Q * list Q);
  env_len : nat;
  compounds_concentration : list Q;
  compounds_unicode_formula : list string
}.

Definition empty_enviroment : Enviroment :=
  {| env_rate_constants := [];
     env_reaction_by_index := [];
     env_stoichiometric_coefficient_by_reaction := [];
     env_rate_dependency_by_reaction := [];
     env_len := 0;
     compounds_concentration := [];
     compounds_unicode_formula := [] |}.

(** The object [self].  The attributes that only [fit] assigns are empty
    until then; the code reads them only behind the [fitted] test. *)
Record KineticalCalculator : Type := {
  accuracy : Q;
  fitted : bool;
  enviroment : Enviroment;
  rate_constants : list (Q * Q);
  reactions_by_index : list (list nat * list nat);
  stoichiometric_coefficient_by_reaction : list (list Q * list Q);
  rate_dependency_by_reaction : list (list Q * list Q);
  number_of_reactions : nat;
  concentrations : list Q
}.

(** [self.concentrations = cs] (and, through it, [self.concentrations[j] = x]) *)
Definition set_concentrations (k : KineticalCalculator) (cs : list Q)
  : KineticalCalculator :=
  {| accuracy := accuracy k;
     fitted := fitted k;
     enviroment := enviroment k;
     rate_constants := rate_constants k;
     reactions_by_index := reactions_by_index k;
     stoichiometric_coefficient_by_reaction :=
       stoichiometric_coefficient_by_reaction k;
     rate_dependency_by_reaction := rate_dependency_by_reaction k;
     number_of_reactions := number_of_reactions k;
     concentrations := cs |}.

(** A method: the outcome and the object afterwards. *)
Definition method (A : Type) : Type :=
  KineticalCalculator -> result A * KineticalCalculator.

Definition mret {A : Type} (a : A) : method A := fun k => (Ok a, k).

Definition mraise {A : Type} (e : PyError) : method A := fun k => (Raise e, k).

Definition mbind {A B : Type} (m : method A) (f : A -> method B) : method B :=
  fun k =>
    match m k with
    | (Raise e, k') => (Raise e, k')
    | (Ok a, k') => f a k'
    end.

(** A computation that reads [self] and may raise, but writes nothing. *)
Definition mread {A : Type} (f : KineticalCalculator -> result A) : method A :=
  fun k => (f k, k).

Notation "'do!' x ':=' m 'in' k" := (mbind m (fun x => k))
  (at level 10, x pattern, m at level 100, k at level 200) : py_scope.

(** [__init__] *)
Definition init (accuracy0 : Q) : KineticalCalculator :=
  {| accuracy := accuracy0;
     fitted := false;
     enviroment := empty_enviroment;
     rate_constants := [];
     reactions_by_index := [];
     stoichiometric_coefficient_by_reaction := [];
     rate_dependency_by_reaction := [];
     number_of_reactions := 0;
     concentrations := [] |}.

(** The argument of [fit]: an [Enviroment] or any other object. *)
Inductive PyObject : Type :=
  | EnviromentObject (env : Enviroment)
  | OtherObject.

(** [fit] *)
Definition fit (arg : PyObject) : method unit :=
  fun k =>
    match arg with
    | EnviromentObject env =>
        (Ok tt,
         {| accuracy := accuracy k;
            fitted := true;
            enviroment := env;
            rate_constants := env_rate_constants env;
            reactions_by_index := env_reaction_by_index env;
            stoichiometric_coefficient_by_reaction :=
              env_stoichiometric_coefficient_by_reaction env;
            rate_dependency_by_reaction := env_rate_dependency_by_reaction env;
            number_of_reactions := env_len env;
            concentrations := compounds_concentration env |})
    | OtherObject => (Raise ValueError, k)
    end.

(** The rows of the list that [calculate] returns: the header
    [["time", formulas]] and the pairs [[time, concentrations]]. *)
Inductive Row : Type :=
  | Header (formulas : list string)
  | Snapshot (t : Q) (concs : list Q).

(** [for x in xs: s = body(s, x)], where the body may raise. *)
Fixpoint for_each {A S : Type} (xs : list A) (s : S) (body : S -> A -> result S)
  : result S :=
  match xs with
  | [] => Ok s
  | x :: rest => let! s' := body s x in for_each rest s' body
  end.

(** [for x in xs: body(x)], where the body reads and writes [self]. *)
Fixpoint mfor {A : Type} (xs : list A) (body : A -> method unit) : method unit :=
  match xs with
  | [] => mret tt
  | x :: rest => do! _ := body x in mfor rest body
  end.

(** [m] run [n] times in a row, stopping at the first exception. *)
Fixpoint repeat_method (n : nat) (m : method unit) : method unit :=
  match n with
  | O => mret tt
  | S n' => do! _ := m in repeat_method n' m
  end.

(** [self.concentrations[j] = x] *)
Definition set_item (j : nat) (x : Q) : method unit :=
  fun k =>
    if (j <? length (concentrations k))%nat
    then (Ok tt, set_concentrations k (<[j := x]> (concentrations k)))
    else (Raise IndexError, k).


(** The value that lines 131-139 leave in [self.concentrations[j]] under a
    recognized policy, from the old value [c] and the change [d]. *)
Definition next_concentration (policy : string) (c d : Q) : Q :=
  if Qltb 0 (c + d) then c + d
  else if String.eqb policy "DoNotChange" then c
  else if String.eqb policy "GoNegetive" then c + d
  else 0.

(** The number [i] as a rational. *)
Definition Qnat (i : nat) : Q := inject_Z (Z.of_nat i).

(** [t <= c < t + step] *)
Definition in_interval (t step c : Q) : bool :=
  Qle_bool t c && Qltb c (t + step).

(** The value of the local [t] in iteration [i] in exact arithmetic:
    [step] added [i] times to 0. *)
Definition tick_time (step : Q) (i : nat) : Q :=
  Nat.iter i (fun t => t + step) 0.

(** The number of iterations of the loop of [calculate] in exact
    arithmetic. *)
Definition iterations (time : Q) (k : KineticalCalculator) : nat :=
  Z.to_nat (py_int (time / accuracy k + 1)).

Section Kinetic.

(** [pow c e] is the value of [c ** e] wherever [**] does not raise. *)
Variable pow : Q -> Q -> Q.

(** [c ** e] in exact arithmetic: defined but for a zero base under a
    negative exponent.  The outcomes that [**] has on floats besides
    (a result out of range, a complex number) are those of
    [Binary64.calculate_concentration_change]. *)
Definition py_pow (c e : Q) : result Q :=
  if singular c e then Raise ZeroDivisionError else Ok (pow c e).

(** Lines 104-109 and 112-117: the extent of one side of a reaction.  The
    test of line 105 reads the exponent only when the concentration is 0,
    but then line 106 reads both again: on every path the concentration is
    looked up first and the exponent second, so the two lookups are made
    once, in that order. *)
Fixpoint extent_loop (k : KineticalCalculator) (rxn_index : nat) (s : side)
    (compounds : list nat) (counter : nat) (r : Q) : result Q :=
  match compounds with
  | [] => Ok r
  | compound :: rest =>
      let! c := index (concentrations k) compound in
      let! dep := index (rate_dependency_by_reaction k) rxn_index in
      let! e := index (pick s dep) counter in
      let! r' :=
        (if negb (Qeq_bool c 0 && Qltb e 0)
         then let! p := py_pow c e in Ok (r * p)
         else Ok 0) in
      extent_loop k rxn_index s rest (S counter) r'
  end.

(** Lines 102-109 ([Forward], [rf]) and 111-117 ([Backward], [rb]). *)
Definition extent (k : KineticalCalculator) (rxn_index : nat) (s : side)
  : result Q :=
  let! ks := index (rate_constants k) rxn_index in
  let! idx := index (reactions_by_index k) rxn_index in
  extent_loop k rxn_index s (pick s idx) 0 (accuracy k * pick s ks).

(** Lines 119-121 and 123-125: [concentration_change[compound] += x * coefficient]. *)
Fixpoint accumulate_loop (k : KineticalCalculator) (rxn_index : nat) (s : side)
    (compounds : list nat) (counter : nat) (x : Q)
    (concentration_change : list Q) : result (list Q) :=
  match compounds with
  | [] => Ok concentration_change
  | compound :: rest =>
      let! old := index concentration_change compound in
      let! sto := index (stoichiometric_coefficient_by_reaction k) rxn_index in
      let! coefficient := index (pick s sto) counter in
      accumulate_loop k rxn_index s rest (S counter) x
        (<[compound := old + x * coefficient]> concentration_change)
  end.

(** Lines 102-125: the body of the loop over the reactions. *)
Definition reaction_step (k : KineticalCalculator)
    (concentration_change : list Q) (rxn_index : nat) : result (list Q) :=
  let! rf := extent k rxn_index Forward in
  let! rb := extent k rxn_index Backward in
  let! idx := index (reactions_by_index k) rxn_index in
  let! concentration_change' :=
    accumulate_loop k rxn_index Forward (fst idx) 0 (rb - rf)
      concentration_change in
  accumulate_loop k rxn_index Backward (snd idx) 0 (rf - rb)
    concentration_change'.

(** Lines 98-126.  [compounds_lenght] is the variable of the enclosing
    [calculate] that the closure reads. *)
Definition calculate_concentration_change (compounds_lenght : nat)
    (k : KineticalCalculator) : result (list Q) :=
  for_each (seq 0 (number_of_reactions k)) (replicate compounds_lenght 0)
    (reaction_step k).

(** Lines 131-142: the update of compound [j]. *)
Definition update_concentration (concentration_below_zero : string)
    (delta_concentration : list Q) (j : nat) : method unit :=
  do! cj := mread (fun k => index (concentrations k) j) in
  do! dj := mread (fun _ => index delta_concentration j) in
  let concentration := cj + dj in
  if Qltb 0 concentration then set_item j concentration
  else if String.eqb concentration_below_zero "DoNotChange" then mret tt
  else if String.eqb concentration_below_zero "GoNegetive"
    then set_item j concentration
  else if String.eqb concentration_below_zero "SetToZero" then set_item j 0
  else mraise ValueError.

(** Lines 129-142: the delta computation followed by the update of every
    compound. *)
Definition step_update (concentration_below_zero : string)
    (compounds_lenght : nat) : method unit :=
  do! delta_concentration :=
    mread (calculate_concentration_change compounds_lenght) in
  mfor (seq 0 (length delta_concentration))
    (update_concentration concentration_below_zero delta_concentration).

(** Lines 146-149: the checkpoints that fall in [[t, t + accuracy)]. *)
Fixpoint record_loop (k : KineticalCalculator) (t : Q) (checkpoint_time : list Q)
    (checkpoints : list Row) : list Row :=
  match checkpoint_time with
  | [] => checkpoints
  | checkpoint_t :: rest =>
      record_loop k t rest
        (if Qle_bool t checkpoint_t && Qltb checkpoint_t (t + accuracy k)
         then checkpoints ++ [Snapshot checkpoint_t (concentrations k)]
         else checkpoints)
  end.

(** Lines 128-151: the loop over [range(int(time/self.accuracy+1))]; the
    locals [t] and [checkpoints] are threaded through it. *)
Fixpoint time_loop (concentration_below_zero : string) (checkpoint_time : list Q)
    (compounds_lenght : nat) (iterations : list nat) (t : Q)
    (checkpoints : list Row) : method (Q * list Row) :=
  match iterations with
  | [] => mret (t, checkpoints)
  | _ :: rest =>
      do! _ := step_update concentration_below_zero compounds_lenght in
      do! checkpoints' :=
        mread (fun k => Ok (record_loop k t checkpoint_time checkpoints)) in
      do! step := mread (fun k => Ok (accuracy k)) in
      time_loop concentration_below_zero checkpoint_time compounds_lenght rest
        (t + step) checkpoints'
  end.

(** [calculate], with [plot = False]. *)
Definition calculate (time : Q) (checkpoint_time : list Q)
    (concentration_below_zero : string) : method (list Row) :=
  do! is_fitted := mread (fun k => Ok (fitted k)) in
  if negb is_fitted then mraise NameError
  else
    do! compounds_lenght := mread (fun k => Ok (length (concentrations k))) in
    do! header :=
      mread (fun k => Ok (Header (compounds_unicode_formula (enviroment k)))) in
    do! steps := mread (fun k => py_div time (accuracy k)) in
    do! final :=
      time_loop concentration_below_zero checkpoint_time compounds_lenght
        (range (py_int (steps + 1))) 0 [header] in
    do! cs := mread (fun k => Ok (concentrations k)) in
    mret (snd final ++ [Snapshot time cs]).

(** *** The step-delta computation as formulas

    The definitions below do not come from the code: they state, as
    closed formulas, what the loops above compute, and the theorems
    compare the two. *)

(** The factors (base, exponent) of one side: the concentration of the
    [i]-th compound of the side and the [i]-th exponent. *)
Definition factors (concs : list Q) (compounds : list nat) (exps : list Q)
  : list (Q * Q) :=
  zip (map (fun i => default 0 (concs !! i)) compounds) exps.

(** The product of the powers [base ^ exponent]. *)
Definition rate_product (fs : list (Q * Q)) : Q :=
  fold_right (fun f acc => pow (fst f) (snd f) * acc) 1 fs.

(** Some factor has a zero base under a negative exponent. *)
Definition has_singular (fs : list (Q * Q)) : bool :=
  existsb (fun f => singular (fst f) (snd f)) fs.

(** [step_size * rate_constant * product of the powers]. *)
Definition product_extent (step kconst : Q) (fs : list (Q * Q)) : Q :=
  step * kconst * rate_product fs.

(** The same, with the zero-concentration / negative-exponent rule. *)
Definition guarded_extent (step kconst : Q) (fs : list (Q * Q)) : Q :=
  if has_singular fs then 0 else product_extent step kconst fs.

Definition rate_constant (k : KineticalCalculator) (r : nat) (s : side) : Q :=
  pick s (default (0, 0) (rate_constants k !! r)).

Definition side_compounds (k : KineticalCalculator) (r : nat) (s : side)
  : list nat :=
  pick s (default ([], []) (reactions_by_index k !! r)).

Definition side_coefficients (k : KineticalCalculator) (r : nat) (s : side)
  : list Q :=
  pick s (default ([], []) (stoichiometric_coefficient_by_reaction k !! r)).

Definition side_exponents (k : KineticalCalculator) (r : nat) (s : side)
  : list Q :=
  pick s (default ([], []) (rate_dependency_by_reaction k !! r)).

Definition side_factors (k : KineticalCalculator) (r : nat) (s : side)
  : list (Q * Q) :=
  factors (concentrations k) (side_compounds k r s) (side_exponents k r s).

(** The extent of side [s] of reaction [r] in the state [k]. *)
Definition extent_of (k : KineticalCalculator) (r : nat) (s : side) : Q :=
  guarded_extent (accuracy k) (rate_constant k r s) (side_factors k r s).







(** *** The run as a sequence of states

    Again not from the code: the states that a run goes through, and the
    checkpoints it records, written as functions of the tick number. *)

(** The change vector in state [k]. *)
Definition delta_vector (k : KineticalCalculator) : list Q :=
  match calculate_concentration_change (length (concentrations k)) k with
  | Ok delta => delta
  | Raise _ => []
  end.

(** The state after one update under a recognized policy. *)
Definition next_state (policy : string) (k : KineticalCalculator)
  : KineticalCalculator :=
  set_concentrations k
    (zip_with (next_concentration policy) (concentrations k) (delta_vector k)).

(** The state after [i] updates. *)
Definition state_after (policy : string) (i : nat) (k : KineticalCalculator)
  : KineticalCalculator :=
  Nat.iter i (next_state policy) k.

(** The rows recorded by iteration [i] (counted from 0) of a run from [k]. *)
Definition recorded_at (policy : string) (checkpoint_time : list Q)
    (k : KineticalCalculator) (i : nat) : list Row :=
  map (fun c => Snapshot c (concentrations (state_after policy (S i) k)))
    (List.filter (in_interval (tick_time (accuracy k) i) (accuracy k))
       checkpoint_time).

(** The rows recorded by iterations [a], ..., [a + m - 1]. *)
Definition recorded (policy : string) (checkpoint_time : list Q)
    (k : KineticalCalculator) (a m : nat) : list Row :=
  concat (map (recorded_at policy checkpoint_time k) (seq a m)).

End Kinetic.

(** An instance of [**] for the examples: exact on integral exponents, as
    Python's [Fraction] is. *)
Definition exact_pow (c e : Q) : Q := Qpower c (Qfloor e).

(** A <-> 2 B from one unit of A, with a step of 1/10. *)
Definition sample_env : Enviroment :=
  {| env_rate_constants := [(1, 1 # 2)];
     env_reaction_by_index := [([0%nat], [1%nat])];
     env_stoichiometric_coefficient_by_reaction := [([1], [2])];
     env_rate_dependency_by_reaction := [([1], [1])];
     env_len := 1;
     compounds_concentration := [1; 0];
     compounds_unicode_formula := ["A"%string; "B"%string] |}.

Definition sample : KineticalCalculator :=
  snd (fit (EnviromentObject sample_env) (init (1 # 10))).

(** Two compounds and no reaction, with a step of 1. *)
Definition inert_env : Enviroment :=
  {| env_rate_constants := [];
     env_reaction_by_index := [];
     env_stoichiometric_coefficient_by_reaction := [];
     env_rate_dependency_by_reaction := [];
     env_len := 0;
     compounds_concentration := [1; 2];
     compounds_unicode_formula := ["A"%string; "B"%string] |}.






(** ** Bound calculators *)

(** One side of one reaction as the data model has it: coefficients and
    exponents aligned with the compound indices, every index valid. *)
Definition wf_sideb (n : nat) (compounds : list nat) (coefs exps : list Q) : bool :=
  (length coefs =? length compounds)%nat
  && (length exps =? length compounds)%nat
  && forallb (fun i => (i <? n)%nat) compounds.

Definition wf_side (n : nat) (compounds : list nat) (coefs exps : list Q) : Prop :=
  length coefs = length compounds /\ length exps = length compounds
  /\ Forall (fun i => (i < n)%nat) compounds.

Fixpoint wf_tablesb (n : nat) (idx : list (list nat * list nat))
    (sto dep : list (list Q * list Q)) : bool :=
  match idx, sto, dep with
  | [], [], [] => true
  | i :: idx', s :: sto', d :: dep' =>
      wf_sideb n (fst i) (fst s) (fst d)
      && wf_sideb n (snd i) (snd s) (snd d)
      && wf_tablesb n idx' sto' dep'
  | _, _, _ => false
  end.

(** A calculator that [fit] has bound to a well-formed network. *)
Definition bound (k : KineticalCalculator) : bool :=
  fitted k
  && (length (rate_constants k) =? number_of_reactions k)%nat
  && (length (reactions_by_index k) =? number_of_reactions k)%nat
  && wf_tablesb (length (concentrations k)) (reactions_by_index k)
       (stoichiometric_coefficient_by_reaction k)
       (rate_dependency_by_reaction k).

(** ** The responsive mode *)

(** The rows of the list that [calculate_responsively] returns: those of
    [calculate], and the last pair [["end", concentrations]]. *)
Inductive ResponsiveRow : Type :=
  | Timed (r : Row)
  | End_ (concs : list Q).

(** What the closure [animate] works on: the object [self], the iterator
    [time = count()] (as the number it yields next) and the list
    [checkpoints]. *)
Record Animation : Type := {
  calculator : KineticalCalculator;
  frame_count : nat;
  animation_rows : list Row
}.

Section Responsive.

Variable pow : Q -> Q -> Q.

(** Lines 234-256: [animate], with [plot = False].  Lines 204-232 and
    237-249 are lines 98-126 and 130-142 of [calculate] again (the message
    of the [ValueError] apart), and lines 253-256 are lines 146-149.  The
    iterator has moved on when the update raises. *)
Definition animate (checkpoint_time : list Q) (concentration_below_zero : string)
    (compounds_lenght : nat) (a : Animation) : result unit * Animation :=
  let n := frame_count a in
  let t := accuracy (calculator a) * Qnat n in
  match step_update pow concentration_below_zero compounds_lenght (calculator a) with
  | (Raise e, k') =>
      (Raise e,
       {| calculator := k'; frame_count := S n;
          animation_rows := animation_rows a |})
  | (Ok _, k') =>
      (Ok tt,
       {| calculator := k'; frame_count := S n;
          animation_rows :=
            record_loop k' t checkpoint_time (animation_rows a) |})
  end.

(** [n] calls of [animate] in a row, up to the first one that raises. *)
Fixpoint animate_frames (n : nat) (checkpoint_time : list Q)
    (concentration_below_zero : string) (compounds_lenght : nat)
    (a : Animation) : result unit * Animation :=
  match n with
  | O => (Ok tt, a)
  | S n' =>
      match animate checkpoint_time concentration_below_zero compounds_lenght a with
      | (Raise e, a') => (Raise e, a')
      | (Ok _, a') =>
          animate_frames n' checkpoint_time concentration_below_zero
            compounds_lenght a'
      end
  end.

(** Modelled from the spec: lines 189-203 and 279-280 of
    [calculate_responsively], with [plot = False], around the scheduler of
    the plotting library, which is not part of the sources.  The spec has
    the updates driven by an external scheduling tick until the run is
    stopped; [frames_run] stands for the number of ticks that the scheduler
    has delivered, as calls of [animate] in a row, when line 279 is
    reached.  With [plot = False] the call of the source reaches line 279
    at once, which is [frames_run = 0]. *)
Definition calculate_responsively (frames_run : nat) (checkpoint_time : list Q)
    (concentration_below_zero : string) : method (list ResponsiveRow) :=
  fun k =>
    if negb (fitted k) then (Raise NameError, k)
    else
      let compounds_lenght := length (concentrations k) in
      let start :=
        {| calculator := k; frame_count := 0;
           animation_rows :=
             [Header (compounds_unicode_formula (enviroment k))] |} in
      match
        animate_frames frames_run checkpoint_time concentration_below_zero
          compounds_lenght start
      with
      | (Raise e, a) => (Raise e, calculator a)
      | (Ok _, a) =>
          (Ok (map Timed (animation_rows a)
               ++ [End_ (concentrations (calculator a))]),
           calculator a)
      end.

End Responsive.

(** ** The list object behind [self.concentrations]

    [calculate] writes into the list [self.concentrations] in place (lines
    133, 137, 139), records copies of it (line 149), and appends the list
    itself to its result (line 167); [fit] binds the attribute to a new
    list (line 57).  Below, list objects have numbers: [current] is the
    one that [self.concentrations] is bound to, with the contents
    [concentrations (self_state h)], and [others] holds the ones it was
    bound to before, as they were left. *)
Record Shared : Type := {
  self_state : KineticalCalculator;
  current : nat;
  others : gmap nat (list Q)
}.

(** The contents of list object [l]. *)
Definition list_object (h : Shared) (l : nat) : option (list Q) :=
  if decide (l = current h) then Some (concentrations (self_state h))
  else others h !! l.

(** A row of a result: the second component is a list of the row's own,
    or list object [l]. *)
Inductive SharedRow : Type :=
  | SharedHeader (formulas : list string)
  | Copied (t : Q) (concs : list Q)
  | Live (t : Q) (l : nat).

(** The rows that the loop builds own their lists. *)
Definition copied (r : Row) : SharedRow :=
  match r with
  | Header formulas => SharedHeader formulas
  | Snapshot t concs => Copied t concs
  end.

(** What a row shows when it is read in the state [h]. *)
Definition read_row (h : Shared) (r : SharedRow) : option Row :=
  match r with
  | SharedHeader formulas => Some (Header formulas)
  | Copied t concs => Some (Snapshot t concs)
  | Live t l =>
      match list_object h l with
      | Some concs => Some (Snapshot t concs)
      | None => None
      end
  end.

Definition with_state (h : Shared) (k : KineticalCalculator) : Shared :=
  {| self_state := k; current := current h; others := others h |}.


Section SharedRuns.

Variable pow : Q -> Q -> Q.

(** [calculate], with [plot = False], with the identity of the lists of
    its result. *)
Definition calculate_shared (time : Q) (checkpoint_time : list Q)
    (concentration_below_zero : string) (h : Shared)
  : result (list SharedRow) * Shared :=
  let k := self_state h in
  if negb (fitted k) then (Raise NameError, h)
  else
    let compounds_lenght := length (concentrations k) in
    let header := Header (compounds_unicode_formula (enviroment k)) in
    match py_div time (accuracy k) with
    | Raise e => (Raise e, h)
    | Ok steps =>
        match
          time_loop pow concentration_below_zero checkpoint_time compounds_lenght
            (range (py_int (steps + 1))) 0 [header] k
        with
        | (Raise e, k') => (Raise e, with_state h k')
        | (Ok final, k') =>
            (Ok (map copied (snd final) ++ [Live time (current h)]),
             with_state h k')
        end
    end.

End SharedRuns.

(** ** Notions for the further properties *)

(** [m] keeps the property [P] of the object, whatever its outcome. *)
Definition preserves {A : Type} (P : KineticalCalculator -> Prop) (m : method A)
  : Prop :=
  forall k, P k -> P (snd (m k)).

(** [k'] is [k] with other concentrations, as many as before. *)
Definition same_frame (k k' : KineticalCalculator) : Prop :=
  k' = set_concentrations k (concentrations k')
  /\ length (concentrations k') = length (concentrations k).

Section Candidates.

Variable pow : Q -> Q -> Q.


End Candidates.

(** No reaction, a step of 0. *)
Definition stalled : KineticalCalculator :=
  snd (fit (EnviromentObject inert_env) (init 0)).







(** [sample], with its list of concentrations as list object 0. *)
Definition shared_sample : Shared :=
  {| self_state := sample; current := 0; others := ∅ |}.

(** ** The reading in binary floating point

    Python's [float] is IEEE 754 binary64, and so is Rocq's primitive
    [float]: the definitions of this module embed the same lines of the
    source with the numbers as floats.  [+], [-], [*] and the comparisons
    are the rounded operations of the machine (they never raise; a
    comparison with NaN is false); [/] raises on a zero divisor; [int(x)]
    raises on an infinity and on NaN.  The integer literals of the source
    ([0] in lines 100, 108, 116, 127, 132 and 139, [1] in line 128) stand
    for the floats of the same value, which is what Python makes of them in
    arithmetic with a float.

    The power operator [**] is again a parameter ([pow]), now with every
    outcome that Python's [**] has on two floats: a float, a complex number
    (a negative base under a non-integral exponent), or an exception
    ([ZeroDivisionError] for a zero base under a negative exponent,
    [OverflowError] for a result out of range). *)

Module Binary64.

Local Open Scope float_scope.

(** A value of the step-delta computation: a float, or a complex number.
    Nothing in the code looks into a complex number: arithmetic with one
    gives a complex number again, and the comparison of line 132 raises on
    it. *)
Inductive number : Type :=
  | Real (x : float)
  | Complex.

(** [a + b] *)
Definition nadd (a b : number) : number :=
  match a, b with
  | Real x, Real y => Real (x + y)
  | _, _ => Complex
  end.

(** [a - b] *)
Definition nsub (a b : number) : number :=
  match a, b with
  | Real x, Real y => Real (x - y)
  | _, _ => Complex
  end.

(** [a * b] *)
Definition nmul (a b : number) : number :=
  match a, b with
  | Real x, Real y => Real (x * y)
  | _, _ => Complex
  end.

(** [x / y] *)
Definition py_div (x y : float) : result float :=
  if y =? 0 then Raise ZeroDivisionError else Ok (x / y).

(** [int(x)]: truncation toward zero; [Prim2SF] gives the sign, the
    mantissa and the exponent of a finite float. *)
Definition py_int (x : float) : result Z :=
  match Prim2SF x with
  | S754_nan => Raise ValueError
  | S754_infinity _ => Raise OverflowError
  | S754_zero _ => Ok 0%Z
  | S754_finite s m e =>
      let magnitude := Z.shiftl (Zpos m) e in
      Ok (if s then (- magnitude)%Z else magnitude)
  end.

(** The test of lines 105 and 113: a zero base under a negative exponent. *)
Definition singular (c e : float) : bool := (c =? 0) && (e <? 0).

(** Neither an infinity nor NaN. *)
Definition finite (x : float) : bool :=
  match Prim2SF x with
  | S754_zero _ | S754_finite _ _ _ => true
  | S754_infinity _ | S754_nan => false
  end.

(** The exact value of a finite float, as a rational. *)
Definition exact (x : float) : Q :=
  match Prim2SF x with
  | S754_finite s m e =>
      let magnitude := (inject_Z (Zpos m) * Qpower 2 e)%Q in
      if s then (- magnitude)%Q else magnitude
  | _ => 0%Q
  end.

(** Modelled from the spec: the class [Enviroment] of the module [_general]
    is not part of the sources; the record has the attributes that
    [KineticalCalculator] reads, typed as the spec's ReactionNetworkView,
    with floats for the numbers. *)
Record Enviroment : Type := {
  env_rate_constants : list (float * float);
  env_reaction_by_index : list (list nat * list nat);
  env_stoichiometric_coefficient_by_reaction : list (list float * list float);
  env_rate_dependency_by_reaction : list (list float * list float);
  env_len : nat;
  compounds_concentration : list float;
  compounds_unicode_formula : list string
}.

Definition empty_enviroment : Enviroment :=
  {| env_rate_constants := [];
     env_reaction_by_index := [];
     env_stoichiometric_coefficient_by_reaction := [];
     env_rate_dependency_by_reaction := [];
     env_len := 0;
     compounds_concentration := [];
     compounds_unicode_formula := [] |}.

(** The object [self]. *)
Record KineticalCalculator : Type := {
  accuracy : float;
  fitted : bool;
  enviroment : Enviroment;
  rate_constants : list (float * float);
  reactions_by_index : list (list nat * list nat);
  stoichiometric_coefficient_by_reaction : list (list float * list float);
  rate_dependency_by_reaction : list (list float * list float);
  number_of_reactions : nat;
  concentrations : list float
}.

(** [self.concentrations = cs] (and, through it, [self.concentrations[j] = x]) *)
Definition set_concentrations (k : KineticalCalculator) (cs : list float)
  : KineticalCalculator :=
  {| accuracy := accuracy k;
     fitted := fitted k;
     enviroment := enviroment k;
     rate_constants := rate_constants k;
     reactions_by_index := reactions_by_index k;
     stoichiometric_coefficient_by_reaction :=
       stoichiometric_coefficient_by_reaction k;
     rate_dependency_by_reaction := rate_dependency_by_reaction k;
     number_of_reactions := number_of_reactions k;
     concentrations := cs |}.

(** A method: the outcome and the object afterwards. *)
Definition method (A : Type) : Type :=
  KineticalCalculator -> result A * KineticalCalculator.

Definition mret {A : Type} (a : A) : method A := fun k => (Ok a, k).

Definition mraise {A : Type} (e : PyError) : method A := fun k => (Raise e, k).

Definition mbind {A B : Type} (m : method A) (f : A -> method B) : method B :=
  fun k =>
    match m k with
    | (Raise e, k') => (Raise e, k')
    | (Ok a, k') => f a k'
    end.

(** A computation that reads [self] and may raise, but writes nothing. *)
Definition mread {A : Type} (f : KineticalCalculator -> result A) : method A :=
  fun k => (f k, k).

Declare Scope binary64_scope.

Notation "'do!' x ':=' m 'in' k" := (mbind m (fun x => k))
  (at level 10, x pattern, m at level 100, k at level 200) : binary64_scope.

Local Open Scope binary64_scope.

(** [__init__] *)
Definition init (accuracy0 : float) : KineticalCalculator :=
  {| accuracy := accuracy0;
     fitted := false;
     enviroment := empty_enviroment;
     rate_constants := [];
     reactions_by_index := [];
     stoichiometric_coefficient_by_reaction := [];
     rate_dependency_by_reaction := [];
     number_of_reactions := 0;
     concentrations := [] |}.

(** The argument of [fit]: an [Enviroment] or any other object. *)
Inductive PyObject : Type :=
  | EnviromentObject (env : Enviroment)
  | OtherObject.

(** [fit] *)
Definition fit (arg : PyObject) : method unit :=
  fun k =>
    match arg with
    | EnviromentObject env =>
        (Ok tt,
         {| accuracy := accuracy k;
            fitted := true;
            enviroment := env;
            rate_constants := env_rate_constants env;
            reactions_by_index := env_reaction_by_index env;
            stoichiometric_coefficient_by_reaction :=
              env_stoichiometric_coefficient_by_reaction env;
            rate_dependency_by_reaction := env_rate_dependency_by_reaction env;
            number_of_reactions := env_len env;
            concentrations := compounds_concentration env |})
    | OtherObject => (Raise ValueError, k)
    end.

(** The rows of the list that [calculate] returns. *)
Inductive Row : Type :=
  | Header (formulas : list string)
  | Snapshot (t : float) (concs : list float).

(** [for x in xs: body(x)], where the body reads and writes [self]. *)
Fixpoint mfor {A : Type} (xs : list A) (body : A -> method unit) : method unit :=
  match xs with
  | [] => mret tt
  | x :: rest => do! _ := body x in mfor rest body
  end.

(** [m] run [n] times in a row, stopping at the first exception. *)
Fixpoint repeat_method (n : nat) (m : method unit) : method unit :=
  match n with
  | O => mret tt
  | S n' => do! _ := m in repeat_method n' m
  end.

(** [self.concentrations[j] = x] *)
Definition set_item (j : nat) (x : float) : method unit :=
  fun k =>
    if (j <? length (concentrations k))%nat
    then (Ok tt, set_concentrations k (<[j := x]> (concentrations k)))
    else (Raise IndexError, k).

(** The value that lines 131-139 leave in [self.concentrations[j]] when
    they return, from the old value [c] and the change [d]. *)
Definition next_concentration (policy : string) (c d : float) : float :=
  if 0 <? c + d then c + d
  else if String.eqb policy "DoNotChange" then c
  else if String.eqb policy "GoNegetive" then c + d
  else 0.

(** [t <= c < t + step] *)
Definition in_interval (t step c : float) : bool :=
  (t <=? c) && (c <? t + step).

(** The value of the local [t] in iteration [i]: [step] added [i] times
    to 0, each sum rounded. *)
Definition tick_time (step : float) (i : nat) : float :=
  Nat.iter i (fun t => t + step) 0.

Section Kinetic.

(** [pow c e] is the outcome of [c ** e]. *)
Variable pow : float -> float -> result number.

(** Lines 104-109 and 112-117: the extent of one side of a reaction; the
    concentration is looked up first and the exponent second on every
    path. *)
Fixpoint extent_loop (k : KineticalCalculator) (rxn_index : nat) (s : side)
    (compounds : list nat) (counter : nat) (r : number) : result number :=
  match compounds with
  | [] => Ok r
  | compound :: rest =>
      let! c := index (concentrations k) compound in
      let! dep := index (rate_dependency_by_reaction k) rxn_index in
      let! e := index (pick s dep) counter in
      let! r' :=
        (if negb ((c =? 0) && (e <? 0))
         then let! p := pow c e in Ok (nmul r p)
         else Ok (Real 0)) in
      extent_loop k rxn_index s rest (S counter) r'
  end.

(** Lines 102-109 ([Forward], [rf]) and 111-117 ([Backward], [rb]). *)
Definition extent (k : KineticalCalculator) (rxn_index : nat) (s : side)
  : result number :=
  let! ks := index (rate_constants k) rxn_index in
  let! idx := index (reactions_by_index k) rxn_index in
  extent_loop k rxn_index s (pick s idx) 0 (Real (accuracy k * pick s ks)).

(** Lines 119-121 and 123-125: [concentration_change[compound] += x * coefficient]. *)
Fixpoint accumulate_loop (k : KineticalCalculator) (rxn_index : nat) (s : side)
    (compounds : list nat) (counter : nat) (x : number)
    (concentration_change : list number) : result (list number) :=
  match compounds with
  | [] => Ok concentration_change
  | compound :: rest =>
      let! old := index concentration_change compound in
      let! sto := index (stoichiometric_coefficient_by_reaction k) rxn_index in
      let! coefficient := index (pick s sto) counter in
      accumulate_loop k rxn_index s rest (S counter) x
        (<[compound := nadd old (nmul x (Real coefficient))]> concentration_change)
  end.

(** Lines 102-125: the body of the loop over the reactions. *)
Definition reaction_step (k : KineticalCalculator)
    (concentration_change : list number) (rxn_index : nat)
  : result (list number) :=
  let! rf := extent k rxn_index Forward in
  let! rb := extent k rxn_index Backward in
  let! idx := index (reactions_by_index k) rxn_index in
  let! concentration_change' :=
    accumulate_loop k rxn_index Forward (fst idx) 0 (nsub rb rf)
      concentration_change in
  accumulate_loop k rxn_index Backward (snd idx) 0 (nsub rf rb)
    concentration_change'.

(** Lines 98-126. *)
Definition calculate_concentration_change (compounds_lenght : nat)
    (k : KineticalCalculator) : result (list number) :=
  for_each (seq 0 (number_of_reactions k)) (replicate compounds_lenght (Real 0))
    (reaction_step k).

(** Lines 131-142: the update of compound [j]; [concentration > 0] raises
    [TypeError] on a complex number. *)
Definition update_concentration (concentration_below_zero : string)
    (delta_concentration : list number) (j : nat) : method unit :=
  do! cj := mread (fun k => index (concentrations k) j) in
  do! dj := mread (fun _ => index delta_concentration j) in
  match nadd (Real cj) dj with
  | Complex => mraise TypeError
  | Real concentration =>
      if 0 <? concentration then set_item j concentration
      else if String.eqb concentration_below_zero "DoNotChange" then mret tt
      else if String.eqb concentration_below_zero "GoNegetive"
        then set_item j concentration
      else if String.eqb concentration_below_zero "SetToZero" then set_item j 0
      else mraise ValueError
  end.

(** Lines 129-142: the delta computation followed by the update of every
    compound. *)
Definition step_update (concentration_below_zero : string)
    (compounds_lenght : nat) : method unit :=
  do! delta_concentration :=
    mread (calculate_concentration_change compounds_lenght) in
  mfor (seq 0 (length delta_concentration))
    (update_concentration concentration_below_zero delta_concentration).

(** Lines 146-149: the checkpoints that fall in [[t, t + accuracy)]. *)
Fixpoint record_loop (k : KineticalCalculator) (t : float)
    (checkpoint_time : list float) (checkpoints : list Row) : list Row :=
  match checkpoint_time with
  | [] => checkpoints
  | checkpoint_t :: rest =>
      record_loop k t rest
        (if (t <=? checkpoint_t) && (checkpoint_t <? t + accuracy k)
         then checkpoints ++ [Snapshot checkpoint_t (concentrations k)]
         else checkpoints)
  end.

(** Lines 128-151: the loop over [range(int(time/self.accuracy+1))]; the
    locals [t] and [checkpoints] are threaded through it. *)
Fixpoint time_loop (concentration_below_zero : string)
    (checkpoint_time : list float) (compounds_lenght : nat)
    (iterations : list nat) (t : float) (checkpoints : list Row)
  : method (float * list Row) :=
  match iterations with
  | [] => mret (t, checkpoints)
  | _ :: rest =>
      do! _ := step_update concentration_below_zero compounds_lenght in
      do! checkpoints' :=
        mread (fun k => Ok (record_loop k t checkpoint_time checkpoints)) in
      do! step := mread (fun k => Ok (accuracy k)) in
      time_loop concentration_below_zero checkpoint_time compounds_lenght rest
        (t + step) checkpoints'
  end.

(** [calculate], with [plot = False]. *)
Definition calculate (time : float) (checkpoint_time : list float)
    (concentration_below_zero : string) : method (list Row) :=
  do! is_fitted := mread (fun k => Ok (fitted k)) in
  if negb is_fitted then mraise NameError
  else
    do! compounds_lenght := mread (fun k => Ok (length (concentrations k))) in
    do! header :=
      mread (fun k => Ok (Header (compounds_unicode_formula (enviroment k)))) in
    do! steps := mread (fun k => py_div time (accuracy k)) in
    do! n := mread (fun _ => py_int (steps + 1)) in
    do! final :=
      time_loop concentration_below_zero checkpoint_time compounds_lenght
        (range n) 0 [header] in
    do! cs := mread (fun k => Ok (concentrations k)) in
    mret (snd final ++ [Snapshot time cs]).

(** *** The step-delta computation as formulas

    The definitions below do not come from the code: they state what the
    loops above compute, on the lists of one side of one reaction, and the
    theorems compare the two. *)

Definition rate_constant (k : KineticalCalculator) (r : nat) (s : side) : float :=
  pick s (default (0, 0) (rate_constants k !! r)).

Definition side_compounds (k : KineticalCalculator) (r : nat) (s : side)
  : list nat :=
  pick s (default ([], []) (reactions_by_index k !! r)).

Definition side_coefficients (k : KineticalCalculator) (r : nat) (s : side)
  : list float :=
  pick s (default ([], []) (stoichiometric_coefficient_by_reaction k !! r)).

Definition side_exponents (k : KineticalCalculator) (r : nat) (s : side)
  : list float :=
  pick s (default ([], []) (rate_dependency_by_reaction k !! r)).

(** The factors (base, exponent) of one side: the concentration of the
    [i]-th compound of the side and the [i]-th exponent. *)
Definition side_factors (k : KineticalCalculator) (r : nat) (s : side)
  : list (float * float) :=
  zip (map (fun i => default 0 (concentrations k !! i)) (side_compounds k r s))
    (side_exponents k r s).

(** The product of the powers of the factors [fs], multiplied into [x]
    one after the other; a factor with a zero base under a negative
    exponent is not raised to its power: it puts 0 in the place of the
    product so far. *)
Fixpoint running_product (x : number) (fs : list (float * float))
  : result number :=
  match fs with
  | [] => Ok x
  | f :: rest =>
      if singular (fst f) (snd f) then running_product (Real 0) rest
      else let! p := pow (fst f) (snd f) in running_product (nmul x p) rest
  end.

(** The extent of side [s] of reaction [r] in the state [k]. *)
Definition extent_of (k : KineticalCalculator) (r : nat) (s : side)
  : result number :=
  running_product (Real (accuracy k * rate_constant k r s)) (side_factors k r s).

(** The extents [(rf, rb)] of the reactions [rs], in this order. *)
Fixpoint extents_of (k : KineticalCalculator) (rs : list nat)
  : result (list (number * number)) :=
  match rs with
  | [] => Ok []
  | r :: rest =>
      let! rf := extent_of k r Forward in
      let! rb := extent_of k r Backward in
      let! xs := extents_of k rest in
      Ok ((rf, rb) :: xs)
  end.

(** What a side adds to compound [j]: [x * coefficient] for every position
    of the side that holds [j], in the order of the positions. *)
Definition side_terms (x : number) (pairs : list (nat * float)) (j : nat)
  : list number :=
  map (fun p => nmul x (Real (snd p)))
    (List.filter (fun p => (fst p =? j)%nat) pairs).

(** What reaction [r], with the extents [rf] and [rb], adds to compound [j]. *)
Definition reaction_terms (k : KineticalCalculator) (j r : nat)
    (x : number * number) : list number :=
  side_terms (nsub (snd x) (fst x))
    (zip (side_compounds k r Forward) (side_coefficients k r Forward)) j
  ++ side_terms (nsub (fst x) (snd x))
       (zip (side_compounds k r Backward) (side_coefficients k r Backward)) j.

(** The terms of compound [j] over the reactions [a], [a + 1], ... with the
    extents [xs]. *)
Fixpoint terms_of (k : KineticalCalculator) (j a : nat)
    (xs : list (number * number)) : list number :=
  match xs with
  | [] => []
  | x :: rest => reaction_terms k j a x ++ terms_of k j (S a) rest
  end.

(** The sum of the terms, added to [x] one after the other. *)
Definition running_sum (x : number) (terms : list number) : number :=
  fold_left nadd terms x.

(** The extent as the product formula alone gives it, with no special
    case: every power of the product is evaluated with [**]. *)
Fixpoint formula_product (x : number) (fs : list (float * float))
  : result number :=
  match fs with
  | [] => Ok x
  | f :: rest =>
      let! p := pow (fst f) (snd f) in formula_product (nmul x p) rest
  end.

Definition formula_extent (k : KineticalCalculator) (r : nat) (s : side)
  : result number :=
  formula_product (Real (accuracy k * rate_constant k r s)) (side_factors k r s).

(** *** The run as a sequence of states

    Again not from the code: the states that a run goes through, and the
    checkpoints it records, written as functions of the tick number. *)

(** The state that [i] updates in a row leave, the last of them being the
    first that raised if one did. *)
Definition state_after (policy : string) (i : nat) (k : KineticalCalculator)
  : KineticalCalculator :=
  snd (repeat_method i (step_update policy (length (concentrations k))) k).

(** The first [i] updates all return. *)
Definition completes (policy : string) (i : nat) (k : KineticalCalculator)
  : Prop :=
  fst (repeat_method i (step_update policy (length (concentrations k))) k)
  = Ok tt.

(** The rows recorded by iteration [i] (counted from 0) of a run from [k]. *)
Definition recorded_at (policy : string) (checkpoint_time : list float)
    (k : KineticalCalculator) (i : nat) : list Row :=
  map (fun c => Snapshot c (concentrations (state_after policy (S i) k)))
    (List.filter (in_interval (tick_time (accuracy k) i) (accuracy k))
       checkpoint_time).

(** The rows recorded by iterations [a], ..., [a + m - 1]. *)
Definition recorded (policy : string) (checkpoint_time : list float)
    (k : KineticalCalculator) (a m : nat) : list Row :=
  concat (map (recorded_at policy checkpoint_time k) (seq a m)).

(** The same rows, each with the number of the iteration that recorded it. *)
Definition recorded_numbered (policy : string) (checkpoint_time : list float)
    (k : KineticalCalculator) (a m : nat) : list (nat * Row) :=
  concat (map (fun i => map (pair i) (recorded_at policy checkpoint_time k i))
            (seq a m)).

End Kinetic.

(** *** Bound calculators *)

Definition wf_sideb (n : nat) (compounds : list nat) (coefs exps : list float)
  : bool :=
  (length coefs =? length compounds)%nat
  && (length exps =? length compounds)%nat
  && forallb (fun i => (i <? n)%nat) compounds.

Definition wf_side (n : nat) (compounds : list nat) (coefs exps : list float)
  : Prop :=
  length coefs = length compounds /\ length exps = length compounds
  /\ Forall (fun i => (i < n)%nat) compounds.

Fixpoint wf_tablesb (n : nat) (idx : list (list nat * list nat))
    (sto dep : list (list float * list float)) : bool :=
  match idx, sto, dep with
  | [], [], [] => true
  | i :: idx', s :: sto', d :: dep' =>
      wf_sideb n (fst i) (fst s) (fst d)
      && wf_sideb n (snd i) (snd s) (snd d)
      && wf_tablesb n idx' sto' dep'
  | _, _, _ => false
  end.

(** A calculator that [fit] has bound to a well-formed network. *)
Definition bound (k : KineticalCalculator) : bool :=
  fitted k
  && (length (rate_constants k) =? number_of_reactions k)%nat
  && (length (reactions_by_index k) =? number_of_reactions k)%nat
  && wf_tablesb (length (concentrations k)) (reactions_by_index k)
       (stoichiometric_coefficient_by_reaction k)
       (rate_dependency_by_reaction k).

(** *** Calculators for the examples *)

(** Python's [**] on the operand pairs of the examples: [c ** 1.0] is [c];
    [c ** 2.0] is the square where the square is exact, an infinity for an
    infinite [c] and [OverflowError] where the square of a finite [c] is out
    of range; [0.0 ** -1.0] raises [ZeroDivisionError]; [c ** 0.5] is a
    complex number for a finite [c < 0].  No other pair occurs in the
    examples; the last line answers for them. *)
Definition sample_pow (c e : float) : result number :=
  if e =? 1 then Ok (Real c)
  else if e =? 2 then
    if is_infinity c then Ok (Real infinity)
    else if is_infinity (c * c) then Raise OverflowError
    else Ok (Real (c * c))
  else if (e =? -1) && (c =? 0) then Raise ZeroDivisionError
  else if (e =? 0.5) && (c <? 0) && negb (is_infinity c) then Ok Complex
  else Raise ValueError.

(** A -> B at rate constant 1/2 and order 1, from one unit of A, with a
    step of 1. *)
Definition decay_env : Enviroment :=
  {| env_rate_constants := [(0.5, 0)];
     env_reaction_by_index := [([0%nat], [1%nat])];
     env_stoichiometric_coefficient_by_reaction := [([1], [1])];
     env_rate_dependency_by_reaction := [([1], [1])];
     env_len := 1;
     compounds_concentration := [1; 0];
     compounds_unicode_formula := ["A"%string; "B"%string] |}.

Definition decay : KineticalCalculator :=
  snd (fit (EnviromentObject decay_env) (init 1)).

(** Two compounds and no reaction, with a step of 1 and with a step of
    0.1. *)
Definition still_env : Enviroment :=
  {| env_rate_constants := [];
     env_reaction_by_index := [];
     env_stoichiometric_coefficient_by_reaction := [];
     env_rate_dependency_by_reaction := [];
     env_len := 0;
     compounds_concentration := [1; 2];
     compounds_unicode_formula := ["A"%string; "B"%string] |}.

Definition still : KineticalCalculator :=
  snd (fit (EnviromentObject still_env) (init 1)).

Definition still_tenth : KineticalCalculator :=
  snd (fit (EnviromentObject still_env) (init 0.1)).

(** A + B -> C at rate exponent [-1] on A and [1] on B, with no A
    present. *)
Definition blocked_env : Enviroment :=
  {| env_rate_constants := [(1, 0.5)];
     env_reaction_by_index := [([0%nat; 1%nat], [2%nat])];
     env_stoichiometric_coefficient_by_reaction := [([1; 1], [1])];
     env_rate_dependency_by_reaction := [([-1; 1], [1])];
     env_len := 1;
     compounds_concentration := [0; 2; 4];
     compounds_unicode_formula := ["A"%string; "B"%string; "C"%string] |}.

Definition blocked : KineticalCalculator :=
  snd (fit (EnviromentObject blocked_env) (init 0.5)).

(** The same with rate exponent [2] on B, and B at 1e200. *)
Definition overflowing_env : Enviroment :=
  {| env_rate_constants := [(1, 0.5)];
     env_reaction_by_index := [([0%nat; 1%nat], [2%nat])];
     env_stoichiometric_coefficient_by_reaction := [([1; 1], [1])];
     env_rate_dependency_by_reaction := [([-1; 2], [1])];
     env_len := 1;
     compounds_concentration := [0; 1e200; 4];
     compounds_unicode_formula := ["A"%string; "B"%string; "C"%string] |}.

Definition overflowing : KineticalCalculator :=
  snd (fit (EnviromentObject overflowing_env) (init 0.5)).

(** B -> C at rate exponent 1/2, with B at a negative concentration, beside
    a compound A that takes no part and is negative too. *)
Definition rooted_env : Enviroment :=
  {| env_rate_constants := [(1, 0)];
     env_reaction_by_index := [([1%nat], [2%nat])];
     env_stoichiometric_coefficient_by_reaction := [([1], [1])];
     env_rate_dependency_by_reaction := [([0.5], [1])];
     env_len := 1;
     compounds_concentration := [-2; -1; 3];
     compounds_unicode_formula := ["A"%string; "B"%string; "C"%string] |}.

Definition rooted : KineticalCalculator :=
  snd (fit (EnviromentObject rooted_env) (init 1)).

(** B -> A at rate constant 20 and order 1, with B at a negative
    concentration. *)
Definition draining_env : Enviroment :=
  {| env_rate_constants := [(20, 0)];
     env_reaction_by_index := [([1%nat], [0%nat])];
     env_stoichiometric_coefficient_by_reaction := [([1], [1])];
     env_rate_dependency_by_reaction := [([1], [1])];
     env_len := 1;
     compounds_concentration := [1; -1];
     compounds_unicode_formula := ["A"%string; "B"%string] |}.

Definition draining : KineticalCalculator :=
  snd (fit (EnviromentObject draining_env) (init 0.5)).

End Binary64.

(** ** Lemmas on numbers *)

Lemma Qltb_lt (x y : Q) : Qltb x y = true <-> x < y.
Proof.
  unfold Qltb. rewrite negb_true_iff. split.
  - intros H. apply Qnot_le_lt. intros Hle.
    apply Qle_bool_iff in Hle. congruence.
  - intros H. destruct (Qle_bool y x) eqn:E; [|reflexivity].
    apply Qle_bool_iff in E. exfalso. exact (Qlt_not_le _ _ H E).
Qed.


(** ** Lemmas on lookups in a bound calculator *)

Lemma index_Some {A : Type} (xs : list A) (i : nat) (x : A) :
  xs !! i = Some x -> index xs i = Ok x.
Proof. unfold index. intros ->. reflexivity. Qed.

Lemma index_lt {A : Type} (xs : list A) (i : nat) :
  (i < length xs)%nat -> exists x, xs !! i = Some x /\ index xs i = Ok x.
Proof.
  intros H. destruct (lookup_lt_is_Some_2 xs i H) as [x Hx].
  exists x. split; [exact Hx | exact (index_Some _ _ _ Hx)].
Qed.




(** A method whose first step only reads [self]. *)
Ltac read_self := unfold mbind at 1; unfold mread at 1.


(** ** The step-delta computation *)

Section DeltaProperties.

Variable pow : Q -> Q -> Q.
















End DeltaProperties.

(** ** The update of the concentrations *)

Lemma set_concentrations_same (k : KineticalCalculator) :
  set_concentrations k (concentrations k) = k.
Proof. destruct k. reflexivity. Qed.









(** ** The time-stepping loop *)


Lemma record_loop_filter (k : KineticalCalculator) (t : Q) (checkpoint_time : list Q) :
  forall checkpoints,
    record_loop k t checkpoint_time checkpoints
    = checkpoints
      ++ map (fun c => Snapshot c (concentrations k))
           (List.filter (in_interval t (accuracy k)) checkpoint_time).
Proof.
  induction checkpoint_time as [|c rest IH]; intros checkpoints.
  - cbn. rewrite app_nil_r. reflexivity.
  - cbn [record_loop List.filter]. rewrite IH. fold (in_interval t (accuracy k) c).
    destruct (in_interval t (accuracy k) c); [|reflexivity].
    rewrite <- app_assoc. reflexivity.
Qed.

Section RunProperties.

Variable pow : Q -> Q -> Q.






End RunProperties.

(** ** Arithmetic of the iteration count and of the intervals *)







Lemma in_interval_iff (t step c : Q) :
  in_interval t step c = true <-> t <= c /\ c < t + step.
Proof.
  unfold in_interval. rewrite andb_true_iff, Qle_bool_iff, Qltb_lt. reflexivity.
Qed.

(** ** The rows that the iterations record *)

Section RunTheorems.

Variable pow : Q -> Q -> Q.


End RunTheorems.

(** ** A policy that is not recognized *)

Section PolicyCheck.

Variable pow : Q -> Q -> Q.





End PolicyCheck.



(** ** The policies *)




Section PolicyTheorems.

Variable pow : Q -> Q -> Q.



(** C7.  Before [fit] has succeeded, [calculate] raises [NameError] and
    leaves the calculator as it was; this is so right after [__init__],
    and a [fit] that fails changes nothing about it. *)
Theorem calculate_before_fit (time : Q) (checkpoint_time : list Q)
    (policy : string) (k : KineticalCalculator) :
  fitted k = false ->
  calculate pow time checkpoint_time policy k = (Raise NameError, k)
  /\ fit OtherObject k = (Raise ValueError, k)
  /\ forall accuracy0,
       fitted (init accuracy0) = false
       /\ calculate pow time checkpoint_time policy (init accuracy0)
          = (Raise NameError, init accuracy0).
Proof.
  intros Hf. split; [|split].
  - unfold calculate, mbind, mread. rewrite Hf. reflexivity.
  - reflexivity.
  - intros accuracy0. split; reflexivity.
Qed.

End PolicyTheorems.

(** ** The theorems at concrete calculators *)


Lemma calculate_before_fit_witness :
  calculate exact_pow 1 [] "SetToZero" (init (1 # 10))
  = (Raise NameError, init (1 # 10)).
Proof.
  exact (proj1 (calculate_before_fit exact_pow 1 [] "SetToZero" (init (1 # 10))
                  eq_refl)).
Defined.




(** ** What a run writes *)

Lemma same_frame_refl (k : KineticalCalculator) : same_frame k k.
Proof.
  split; [symmetry; apply set_concentrations_same | reflexivity].
Qed.

Lemma same_frame_set (k0 k : KineticalCalculator) (cs : list Q) :
  same_frame k0 k -> length cs = length (concentrations k) ->
  same_frame k0 (set_concentrations k cs).
Proof.
  intros [Hk Hlen] Hcs. split.
  - rewrite Hk. reflexivity.
  - cbn [concentrations set_concentrations]. congruence.
Qed.

Lemma preserves_mret {A : Type} (P : KineticalCalculator -> Prop) (a : A) :
  preserves P (mret a).
Proof. intros k Hk. exact Hk. Qed.

Lemma preserves_mraise {A : Type} (P : KineticalCalculator -> Prop) (e : PyError) :
  preserves P (@mraise A e).
Proof. intros k Hk. exact Hk. Qed.

Lemma preserves_mread {A : Type} (P : KineticalCalculator -> Prop)
    (f : KineticalCalculator -> result A) :
  preserves P (mread f).
Proof. intros k Hk. exact Hk. Qed.

Lemma preserves_mbind {A B : Type} (P : KineticalCalculator -> Prop)
    (m : method A) (f : A -> method B) :
  preserves P m -> (forall a, preserves P (f a)) -> preserves P (mbind m f).
Proof.
  intros Hm Hf k Hk. unfold mbind. specialize (Hm k Hk).
  destruct (m k) as [[e|a] k']; cbn [snd] in *; [exact Hm|].
  apply Hf. exact Hm.
Qed.

Lemma preserves_mfor {A : Type} (P : KineticalCalculator -> Prop)
    (body : A -> method unit) (xs : list A) :
  (forall x, preserves P (body x)) -> preserves P (mfor xs body).
Proof.
  intros Hbody. induction xs as [|x xs IH]; cbn [mfor].
  - apply preserves_mret.
  - apply preserves_mbind; [apply Hbody | intros _; exact IH].
Qed.

Create HintDb frame discriminated.

#[local] Hint Resolve preserves_mret preserves_mraise preserves_mread
  preserves_mfor : frame.

Lemma set_item_frame (k0 : KineticalCalculator) (j : nat) (x : Q) :
  preserves (same_frame k0) (set_item j x).
Proof.
  intros k Hk. unfold set_item.
  destruct (j <? length (concentrations k))%nat; cbn [snd]; [|exact Hk].
  apply same_frame_set; [exact Hk | apply length_insert].
Qed.

Lemma update_concentration_frame (k0 : KineticalCalculator) (policy : string)
    (delta : list Q) (j : nat) :
  preserves (same_frame k0) (update_concentration policy delta j).
Proof.
  unfold update_concentration.
  apply preserves_mbind; [auto with frame|]. intros cj.
  apply preserves_mbind; [auto with frame|]. intros dj. cbv zeta.
  repeat match goal with
         | |- preserves _ (if ?b then _ else _) => destruct b
         end; auto using set_item_frame with frame.
Qed.

Section FrameProperties.

Variable pow : Q -> Q -> Q.

Lemma step_update_frame (k0 : KineticalCalculator) (policy : string) (n : nat) :
  preserves (same_frame k0) (step_update pow policy n).
Proof.
  unfold step_update. apply preserves_mbind; [auto with frame|].
  intros delta. apply preserves_mfor. intros j. apply update_concentration_frame.
Qed.

Lemma time_loop_frame (k0 : KineticalCalculator) (policy : string)
    (checkpoint_time : list Q) (n : nat) (iters : list nat) :
  forall t checkpoints,
    preserves (same_frame k0)
      (time_loop pow policy checkpoint_time n iters t checkpoints).
Proof.
  induction iters as [|i iters IH]; intros t checkpoints; cbn [time_loop].
  - apply preserves_mret.
  - apply preserves_mbind; [apply step_update_frame|]. intros _.
    apply preserves_mbind; [auto with frame|]. intros checkpoints'.
    apply preserves_mbind; [auto with frame|]. intros step. apply IH.
Qed.

Lemma animate_frames_frame (k0 : KineticalCalculator) (policy : string)
    (checkpoint_time : list Q) (len : nat) (n : nat) :
  forall a, same_frame k0 (calculator a) ->
    same_frame k0
      (calculator (snd (animate_frames pow n checkpoint_time policy len a))).
Proof.
  induction n as [|n IH]; intros a Ha; [exact Ha|].
  cbn [animate_frames]. unfold animate.
  pose proof (step_update_frame k0 policy len (calculator a) Ha) as H.
  destruct (step_update pow policy len (calculator a)) as [[e|u] k'];
    cbn [snd] in *; [exact H|].
  apply IH. exact H.
Qed.

Lemma calculate_frame (time : Q) (checkpoint_time : list Q) (policy : string)
    (k : KineticalCalculator) :
  same_frame k (snd (calculate pow time checkpoint_time policy k)).
Proof.
  enough (Hp : preserves (same_frame k)
                 (calculate pow time checkpoint_time policy))
    by exact (Hp k (same_frame_refl k)).
  unfold calculate.
  apply preserves_mbind; [auto with frame|]. intros is_fitted.
  destruct (negb is_fitted); [auto with frame|].
  apply preserves_mbind; [auto with frame|]. intros len.
  apply preserves_mbind; [auto with frame|]. intros header.
  apply preserves_mbind; [auto with frame|]. intros steps.
  apply preserves_mbind; [apply time_loop_frame|]. intros final.
  apply preserves_mbind; [auto with frame|]. intros cs. auto with frame.
Qed.

(** X1.  Whatever its arguments and whatever its outcome, a run (by
    [calculate], or by [calculate_responsively] after any number of frames)
    writes nothing of the calculator but the entries of its concentration
    vector: the step, the [fitted] flag, the environment with its own
    concentrations, the cached tables and the number of compounds are as
    before. *)
Theorem run_writes_concentrations_only (time : Q) (checkpoint_time : list Q)
    (policy : string) (frames_run : nat) (k : KineticalCalculator) :
  same_frame k (snd (calculate pow time checkpoint_time policy k))
  /\ same_frame k
       (snd (calculate_responsively pow frames_run checkpoint_time policy k))
  /\ enviroment (snd (calculate pow time checkpoint_time policy k))
     = enviroment k.
Proof.
  pose proof (calculate_frame time checkpoint_time policy k) as Hcalc.
  split; [exact Hcalc|]. split.
  - unfold calculate_responsively.
    destruct (negb (fitted k)); [apply same_frame_refl|].
    match goal with
    | |- context [animate_frames pow ?n ?c ?p ?l ?a] =>
        pose proof (animate_frames_frame k p c l n a (same_frame_refl k)) as H;
        destruct (animate_frames pow n c p l a) as [[e|u] a']
    end; exact H.
  - destruct Hcalc as [-> _]. reflexivity.
Qed.

End FrameProperties.

(** ** Degenerate arguments *)

Section DegenerateRuns.

Variable pow : Q -> Q -> Q.

Lemma in_interval_zero_step (t step c : Q) :
  step == 0 -> in_interval t step c = false.
Proof.
  intros Hs. apply not_true_is_false. rewrite in_interval_iff.
  intros [H1 H2]. lra.
Qed.

Lemma record_loop_zero_step (k : KineticalCalculator) (t : Q)
    (checkpoint_time : list Q) (rows : list Row) :
  accuracy k == 0 -> record_loop k t checkpoint_time rows = rows.
Proof.
  intros Hs. rewrite record_loop_filter.
  rewrite (filter_ext _ (fun _ => false))
    by (intros c; apply in_interval_zero_step; exact Hs).
  replace (List.filter (fun _ : Q => false) checkpoint_time) with (@nil Q).
  - apply app_nil_r.
  - induction checkpoint_time as [|c l IH]; [reflexivity | exact IH].
Qed.

Lemma animate_frames_zero_step (policy : string) (checkpoint_time : list Q)
    (len : nat) (n : nat) :
  forall a, accuracy (calculator a) == 0 ->
    animation_rows (snd (animate_frames pow n checkpoint_time policy len a))
    = animation_rows a.
Proof.
  induction n as [|n IH]; intros a Ha; [reflexivity|].
  cbn [animate_frames]. unfold animate.
  pose proof (step_update_frame pow (calculator a) policy len (calculator a)
                (same_frame_refl _)) as [Hk _].
  destruct (step_update pow policy len (calculator a)) as [[e|u] k'];
    cbn [snd] in *; [reflexivity|].
  assert (Hacc : accuracy k' == 0) by (rewrite Hk; exact Ha).
  rewrite IH by exact Hacc. cbn [animation_rows].
  apply record_loop_zero_step. exact Hacc.
Qed.

(** X2.  A step of 0 is not rejected when the calculator is made, and the
    two modes differ on it.  On a fitted calculator whose step is 0,
    [calculate] raises [ZeroDivisionError] (from [time/self.accuracy])
    before it updates anything, whatever the network, the duration and the
    policy; the frames of [calculate_responsively] run, but none of them
    ever records a checkpoint, so that a result that is returned consists
    of the header and the last pair. *)
Theorem zero_step_raises (time : Q) (checkpoint_time : list Q) (policy : string)
    (frames_run : nat) (k : KineticalCalculator) :
  fitted k = true -> accuracy k == 0 ->
  calculate pow time checkpoint_time policy k = (Raise ZeroDivisionError, k)
  /\ match calculate_responsively pow frames_run checkpoint_time policy k with
     | (Ok rows, k') =>
         rows = [Timed (Header (compounds_unicode_formula (enviroment k)));
                 End_ (concentrations k')]
     | (Raise _, _) => True
     end.
Proof.
  intros Hf Hacc. split.
  - unfold calculate. read_self. rewrite Hf. cbn [negb].
    do 3 read_self. unfold py_div. rewrite (Qeq_eq_bool _ _ Hacc). reflexivity.
  - unfold calculate_responsively. rewrite Hf. cbn [negb].
    match goal with
    | |- context [animate_frames pow ?n ?c ?p ?l ?a] =>
        pose proof (animate_frames_zero_step p c l n a Hacc) as Hrows;
        destruct (animate_frames pow n c p l a) as [[e|u] a']
    end.
    + exact I.
    + cbn [snd animation_rows] in Hrows. rewrite Hrows. reflexivity.
Qed.



End DegenerateRuns.

(** ** Compounds outside every reaction, and equilibrium *)








Section Spectators.

Variable pow : Q -> Q -> Q.





End Spectators.

(** ** The policies over a run *)

Section PoliciesOverRuns.

Variable pow : Q -> Q -> Q.




End PoliciesOverRuns.

(** ** The final pair and the list it holds *)



Section SharedProperties.

Variable pow : Q -> Q -> Q.





End SharedProperties.

(** ** The further theorems at concrete calculators *)

Lemma zero_step_raises_witness :
  calculate exact_pow 1 [0] "SetToZero" stalled = (Raise ZeroDivisionError, stalled)
  /\ calculate_responsively exact_pow 3 [0] "SetToZero" stalled
     = (Ok [Timed (Header ["A"%string; "B"%string]); End_ [1; 2]], stalled).
Proof.
  pose proof (zero_step_raises exact_pow 1 [0] "SetToZero" 3 stalled
                eq_refl ltac:(reflexivity)) as [H1 H2].
  split; [exact H1 | reflexivity].
Defined.






(** The last pair of the result of a run of [sample] shows [[0.9; 0.2]]
    after the run and something else after the next run. *)
Example final_pair_changes :
  let h1 := snd (calculate_shared exact_pow 0 [] "SetToZero" shared_sample) in
  let h2 := snd (calculate_shared exact_pow 0 [] "SetToZero" h1) in
  exists cs1 cs2,
    read_row h1 (Live 0 0%nat) = Some (Snapshot 0 cs1)
    /\ read_row h2 (Live 0 0%nat) = Some (Snapshot 0 cs2)
    /\ Forall2 Qeq cs1 [9 # 10; 2 # 10]
    /\ ~ Forall2 Qeq cs2 cs1.
Proof.
  eexists _, _. split; [reflexivity|]. split; [reflexivity|]. split.
  - repeat constructor.
  - intros H. inversion H as [|? ? ? ? Hq _]; subst. discriminate Hq.
Qed.


(** ** Binding again *)

Section BindingAgain.

Variable pow : Q -> Q -> Q.

(** X16.  [fit] starts over: binding a calculator to an environment again
    after a run, whatever the run was and however it ended, gives exactly
    the calculator that the first binding gave. *)
Theorem refit_restores (env : Enviroment) (time : Q) (checkpoint_time : list Q)
    (policy : string) (k : KineticalCalculator) :
  let bound_once := snd (fit (EnviromentObject env) k) in
  fit (EnviromentObject env)
    (snd (calculate pow time checkpoint_time policy bound_once))
  = (Ok tt, bound_once).
Proof.
  cbv zeta.
  destruct (calculate_frame pow time checkpoint_time policy
              (snd (fit (EnviromentObject env) k))) as [Hk _].
  rewrite Hk. reflexivity.
Qed.

End BindingAgain.

(** ** Binary floating point: lemmas on numbers *)

Section FloatNumbers.

Import Binary64.
Local Open Scope float_scope.

Lemma ltb_leb (x y : float) : (x <? y) = true -> (x <=? y) = true.
Proof.
  rewrite ltb_spec, leb_spec. unfold SFltb, SFleb.
  destruct (SFcompare _ _) as [[]|]; congruence.
Qed.

Lemma Prim2SF_zero : Prim2SF 0 = S754_zero false.
Proof. reflexivity. Qed.

Lemma eqb_zero (x : float) :
  (x =? 0) = true <-> exists s, Prim2SF x = S754_zero s.
Proof.
  rewrite FloatAxioms.eqb_spec, Prim2SF_zero. unfold SFeqb. split.
  - destruct (Prim2SF x) as [s|s| |s m e]; cbn; try discriminate.
    + intros _. exists s. reflexivity.
    + destruct s; discriminate.
    + destruct s; discriminate.
  - intros [s ->]. reflexivity.
Qed.

Lemma mul_zero_finite (x p : float) :
  (x =? 0) = true -> finite p = true -> (x * p =? 0) = true.
Proof.
  intros Hx Hp. apply eqb_zero in Hx. destruct Hx as [s Hs].
  apply eqb_zero. unfold finite in Hp. rewrite mul_spec, Hs.
  destruct (Prim2SF p) as [sp|sp| |sp m e]; try discriminate.
  - eexists. reflexivity.
  - eexists. reflexivity.
Qed.

Lemma leb_zero_zero (x : float) : (x =? 0) = true -> (0 <=? x) = true.
Proof.
  intros Hx. apply eqb_zero in Hx. destruct Hx as [s Hs].
  rewrite leb_spec, Prim2SF_zero, Hs. reflexivity.
Qed.

End FloatNumbers.

(** ** Binary floating point: lookups in a bound calculator *)

Section FloatLookups.

Import Binary64.

Lemma float_wf_side n compounds coefs exps :
  wf_sideb n compounds coefs exps = true -> wf_side n compounds coefs exps.
Proof.
  unfold wf_sideb, wf_side. rewrite !andb_true_iff, !Nat.eqb_eq.
  intros [[H1 H2] H3]. repeat split; try assumption.
  apply Forall_forall. intros i Hi.
  rewrite forallb_forall in H3. apply Nat.ltb_lt, H3.
  apply list_elem_of_In. exact Hi.
Qed.

Lemma float_wf_tables_lookup n idx : forall sto dep r,
  wf_tablesb n idx sto dep = true -> (r < length idx)%nat ->
  exists i s d, idx !! r = Some i /\ sto !! r = Some s /\ dep !! r = Some d
    /\ forall sd, wf_side n (pick sd i) (pick sd s) (pick sd d).
Proof.
  induction idx as [|i idx IH]; intros sto dep r Hwf Hr; simpl in Hr; [lia|].
  destruct sto as [|s sto]; [discriminate|].
  destruct dep as [|d dep]; [discriminate|].
  simpl in Hwf. rewrite !andb_true_iff in Hwf. destruct Hwf as [[Hf Hb] Hrest].
  destruct r as [|r].
  - exists i, s, d. do 3 (split; [reflexivity|]).
    intros sd. destruct sd; simpl; apply float_wf_side; assumption.
  - simpl. apply IH; [assumption | lia].
Qed.

Lemma float_bound_lookup (k : KineticalCalculator) (r : nat) :
  bound k = true -> (r < number_of_reactions k)%nat ->
  exists ks i s d,
    rate_constants k !! r = Some ks
    /\ reactions_by_index k !! r = Some i
    /\ stoichiometric_coefficient_by_reaction k !! r = Some s
    /\ rate_dependency_by_reaction k !! r = Some d
    /\ forall sd,
         wf_side (length (concentrations k)) (pick sd i) (pick sd s) (pick sd d).
Proof.
  unfold bound. rewrite !andb_true_iff, !Nat.eqb_eq.
  intros [[[_ Hk] Hi] Hwf] Hr.
  destruct (lookup_lt_is_Some_2 (rate_constants k) r) as [ks Hks]; [lia|].
  destruct (float_wf_tables_lookup _ _ _ _ r Hwf) as (i & s & d & H1 & H2 & H3 & H4);
    [lia|].
  exists ks, i, s, d. auto.
Qed.

End FloatLookups.

(** ** Binary floating point: the step-delta computation *)

Section FloatDelta.

Import Binary64.
Local Open Scope float_scope.

Variable pow : float -> float -> result number.

Lemma extent_loop_running (k : KineticalCalculator) (r : nat) (s : side)
    (dep : list float * list float) (compounds : list nat) :
  rate_dependency_by_reaction k !! r = Some dep ->
  Forall (fun i => (i < length (concentrations k))%nat) compounds ->
  forall counter x,
    (length compounds + counter <= length (pick s dep))%nat ->
    extent_loop pow k r s compounds counter x
    = running_product pow x
        (zip (map (fun i => default 0 (concentrations k !! i)) compounds)
           (drop counter (pick s dep))).
Proof.
  intros Hdep Hall. induction Hall as [|compound rest Hc Hrest IH];
    intros counter x Hlen.
  - reflexivity.
  - simpl in Hlen. cbn [extent_loop].
    destruct (index_lt (concentrations k) compound Hc) as (c & Hc1 & Hc2).
    destruct (index_lt (pick s dep) counter) as (e & He1 & He2); [lia|].
    rewrite Hc2, (index_Some _ _ _ Hdep). cbn [rbind]. rewrite He2. cbn [rbind].
    rewrite (drop_S _ _ _ He1). cbn [map zip zip_with].
    rewrite Hc1. cbn [default from_option id running_product fst snd].
    fold (singular c e).
    destruct (singular c e) eqn:Hs; cbn [negb rbind].
    + apply IH. lia.
    + destruct (pow c e) as [err|p]; cbn [rbind]; [reflexivity|].
      apply IH. lia.
Qed.

(** Under a bound calculator the lookups of the extent loop are in range,
    and the loop is the running product over the factors of the side. *)
Lemma extent_running (k : KineticalCalculator) (r : nat) (s : side) :
  bound k = true -> (r < number_of_reactions k)%nat ->
  extent pow k r s = extent_of pow k r s.
Proof.
  intros Hb Hr.
  destruct (float_bound_lookup k r Hb Hr)
    as (ks & i & st & d & Hks & Hi & Hst & Hd & Hwf).
  destruct (Hwf s) as (Hl1 & Hl2 & Hall).
  unfold extent. rewrite (index_Some _ _ _ Hks), (index_Some _ _ _ Hi).
  cbn [rbind]. rewrite (extent_loop_running k r s d _ Hd Hall) by lia.
  unfold extent_of, side_factors, side_compounds, side_exponents, rate_constant.
  rewrite Hks, Hi, Hd. cbn [default from_option id]. rewrite drop_0. reflexivity.
Qed.

Lemma running_sum_app (x : number) (l1 l2 : list number) :
  running_sum x (l1 ++ l2) = running_sum (running_sum x l1) l2.
Proof. unfold running_sum. apply fold_left_app. Qed.

Lemma accumulate_loop_terms (k : KineticalCalculator) (r : nat) (s : side)
    (sto : list float * list float) (n : nat) (x : number) (compounds : list nat) :
  stoichiometric_coefficient_by_reaction k !! r = Some sto ->
  Forall (fun i => (i < n)%nat) compounds ->
  forall counter cc,
    length cc = n ->
    (length compounds + counter <= length (pick s sto))%nat ->
    exists cc',
      accumulate_loop k r s compounds counter x cc = Ok cc'
      /\ length cc' = n
      /\ forall j c, cc !! j = Some c ->
           cc' !! j
           = Some (running_sum c
                     (side_terms x (zip compounds (drop counter (pick s sto))) j)).
Proof.
  intros Hsto Hall. induction Hall as [|compound rest Hc Hrest IH];
    intros counter cc Hcc Hlen.
  - exists cc. split; [reflexivity|]. split; [exact Hcc|].
    intros j c Hj. exact Hj.
  - simpl in Hlen. cbn [accumulate_loop].
    destruct (index_lt cc compound) as (old & Ho1 & Ho2); [lia|].
    destruct (index_lt (pick s sto) counter) as (co & Hco1 & Hco2); [lia|].
    rewrite Ho2, (index_Some _ _ _ Hsto). cbn [rbind]. rewrite Hco2. cbn [rbind].
    destruct (IH (S counter)
                (<[compound := nadd old (nmul x (Real co))]> cc))
      as (cc' & H & L & E); [rewrite length_insert; exact Hcc | lia |].
    exists cc'. split; [exact H|]. split; [exact L|].
    intros j c Hj. rewrite (drop_S _ _ _ Hco1). cbn [zip zip_with].
    unfold side_terms. cbn [List.filter fst snd].
    destruct (Nat.eqb_spec compound j) as [->|Hne].
    + rewrite Hj in Ho1. injection Ho1 as <-.
      cbn [map]. unfold running_sum. cbn [fold_left].
      apply E. apply list_lookup_insert_eq.
      apply lookup_lt_Some in Hj. exact Hj.
    + apply E. rewrite list_lookup_insert_ne by exact Hne. exact Hj.
Qed.

(** The body of the loop over the reactions: it raises what the first of
    its two extents raises, and otherwise adds the terms of the reaction to
    every compound. *)
Lemma reaction_step_terms (k : KineticalCalculator) (r : nat)
    (cc : list number) :
  bound k = true -> (r < number_of_reactions k)%nat ->
  length cc = length (concentrations k) ->
  match extent_of pow k r Forward, extent_of pow k r Backward with
  | Raise e, _ => reaction_step pow k cc r = Raise e
  | Ok _, Raise e => reaction_step pow k cc r = Raise e
  | Ok rf, Ok rb =>
      exists cc', reaction_step pow k cc r = Ok cc'
        /\ length cc' = length cc
        /\ forall j c, cc !! j = Some c ->
             cc' !! j = Some (running_sum c (reaction_terms k j r (rf, rb)))
  end.
Proof.
  intros Hb Hr Hcc.
  unfold reaction_step. rewrite !(extent_running k r _ Hb Hr).
  destruct (extent_of pow k r Forward) as [e|rf]; [reflexivity|].
  destruct (extent_of pow k r Backward) as [e|rb]; [reflexivity|].
  cbn [rbind].
  destruct (float_bound_lookup k r Hb Hr)
    as (ks & i & st & d & Hks & Hi & Hst & Hd & Hwf).
  destruct (Hwf Forward) as (Hf1 & Hf2 & Hfall).
  destruct (Hwf Backward) as (Hb1 & Hb2 & Hball).
  cbn [pick] in *.
  rewrite (index_Some _ _ _ Hi). cbn [rbind].
  destruct (accumulate_loop_terms k r Forward st _ (nsub rb rf) _ Hst Hfall
              0%nat cc Hcc) as (cc1 & H1 & L1 & E1); [cbn [pick]; lia|].
  rewrite H1. cbn [rbind].
  destruct (accumulate_loop_terms k r Backward st _ (nsub rf rb) _ Hst Hball
              0%nat cc1 L1) as (cc2 & H2 & L2 & E2); [cbn [pick]; lia|].
  exists cc2. split; [exact H2|]. split; [congruence|].
  intros j c Hj. rewrite (E2 j _ (E1 j c Hj)).
  unfold reaction_terms, side_compounds, side_coefficients.
  rewrite Hi, Hst. cbn [default from_option id pick fst snd].
  rewrite !drop_0, running_sum_app. reflexivity.
Qed.

Lemma for_each_reactions_terms (k : KineticalCalculator) (m : nat) :
  bound k = true ->
  forall a cc,
    (a + m <= number_of_reactions k)%nat ->
    length cc = length (concentrations k) ->
    match extents_of pow k (seq a m) with
    | Raise e => for_each (seq a m) cc (reaction_step pow k) = Raise e
    | Ok xs =>
        exists cc', for_each (seq a m) cc (reaction_step pow k) = Ok cc'
          /\ length cc' = length cc
          /\ forall j c, cc !! j = Some c ->
               cc' !! j = Some (running_sum c (terms_of k j a xs))
    end.
Proof.
  intros Hb. induction m as [|m IH]; intros a cc Ha Hcc.
  - cbn. exists cc. split; [reflexivity|]. split; [reflexivity|].
    intros j c Hj. exact Hj.
  - cbn [seq for_each extents_of].
    pose proof (reaction_step_terms k a cc Hb ltac:(lia) Hcc) as Hstep.
    destruct (extent_of pow k a Forward) as [e|rf];
      [rewrite Hstep; reflexivity|].
    destruct (extent_of pow k a Backward) as [e|rb];
      [rewrite Hstep; reflexivity|].
    destruct Hstep as (cc1 & H1 & L1 & E1). rewrite H1. cbn [rbind].
    specialize (IH (S a) cc1 ltac:(lia) ltac:(congruence)).
    destruct (extents_of pow k (seq (S a) m)) as [e|xs]; [exact IH|].
    destruct IH as (cc2 & H2 & L2 & E2). cbn [rbind].
    exists cc2. split; [exact H2|]. split; [congruence|].
    intros j c Hj. rewrite (E2 j _ (E1 j c Hj)).
    cbn [terms_of]. rewrite running_sum_app. reflexivity.
Qed.

(** The step-delta computation of a bound calculator raises what the first
    extent that raises raises; otherwise it returns a vector with one
    entry per compound, the running sum of the terms of the compound. *)
Lemma calculate_concentration_change_terms (k : KineticalCalculator) :
  bound k = true ->
  match extents_of pow k (seq 0 (number_of_reactions k)) with
  | Raise e =>
      calculate_concentration_change pow (length (concentrations k)) k = Raise e
  | Ok xs =>
      exists delta,
        calculate_concentration_change pow (length (concentrations k)) k
        = Ok delta
        /\ length delta = length (concentrations k)
        /\ forall j, (j < length (concentrations k))%nat ->
             delta !! j = Some (running_sum (Real 0) (terms_of k j 0 xs))
  end.
Proof.
  intros Hb. unfold calculate_concentration_change.
  pose proof (for_each_reactions_terms k (number_of_reactions k) Hb 0%nat
                (replicate (length (concentrations k)) (Real 0))
                ltac:(lia) ltac:(apply length_replicate)) as H.
  destruct (extents_of pow k (seq 0 (number_of_reactions k))) as [e|xs];
    [exact H|].
  destruct H as (delta & H & L & E). rewrite length_replicate in L.
  exists delta. split; [exact H|]. split; [exact L|].
  intros j Hj. apply E. apply lookup_replicate. split; [reflexivity|exact Hj].
Qed.

(** With no guarded factor and every power a float, the running product
    is the product, taken from left to right. *)
Lemma running_product_regular (fs : list (float * float)) :
  forall (ps : list float) (x : float),
    Forall2 (fun f p => singular (fst f) (snd f) = false
                        /\ pow (fst f) (snd f) = Ok (Real p)) fs ps ->
    running_product pow (Real x) fs = Ok (Real (fold_left mul ps x)).
Proof.
  induction fs as [|f fs IH]; intros ps x H.
  - apply Forall2_nil_inv_l in H. subst ps. reflexivity.
  - apply Forall2_cons_inv_l in H. destruct H as (p & ps' & [Hs Hp] & Hrest & ->).
    cbn [running_product fold_left]. rewrite Hs, Hp. cbn [rbind nmul].
    apply IH. exact Hrest.
Qed.

(** A guarded factor puts 0 in the place of the product of the factors
    before it, which are evaluated all the same. *)
Lemma running_product_guarded (pre post : list (float * float))
    (f : float * float) :
  singular (fst f) (snd f) = true ->
  forall x,
    running_product pow x (pre ++ f :: post)
    = let! _ := running_product pow x pre in running_product pow (Real 0) post.
Proof.
  intros Hs. induction pre as [|g pre IH]; intros x.
  - cbn [app running_product rbind]. rewrite Hs. reflexivity.
  - cbn [app running_product].
    destruct (singular (fst g) (snd g)); [apply IH|].
    destruct (pow (fst g) (snd g)) as [e|p]; cbn [rbind]; [reflexivity|].
    apply IH.
Qed.

Lemma running_product_returns (fs : list (float * float)) :
  Forall (fun f => singular (fst f) (snd f) = true
                   \/ exists v, pow (fst f) (snd f) = Ok v) fs ->
  forall x, exists y, running_product pow x fs = Ok y.
Proof.
  induction 1 as [|f fs Hf Hrest IH]; intros x.
  - exists x. reflexivity.
  - cbn [running_product]. destruct (singular (fst f) (snd f)) eqn:Hs.
    + apply IH.
    + destruct Hf as [Hf|[v Hv]]; [congruence|]. rewrite Hv. cbn [rbind].
      apply IH.
Qed.

Lemma running_product_zero (fs : list (float * float)) :
  Forall (fun f => singular (fst f) (snd f) = true
                   \/ exists p, pow (fst f) (snd f) = Ok (Real p)
                                /\ finite p = true) fs ->
  forall x, (x =? 0) = true ->
    exists y, running_product pow (Real x) fs = Ok (Real y) /\ (y =? 0) = true.
Proof.
  induction 1 as [|f fs Hf Hrest IH]; intros x Hx.
  - exists x. split; [reflexivity|exact Hx].
  - cbn [running_product]. destruct (singular (fst f) (snd f)) eqn:Hs.
    + apply IH. reflexivity.
    + destruct Hf as [Hf|(p & Hp & Hfin)]; [congruence|]. rewrite Hp.
      cbn [rbind nmul]. apply IH. apply mul_zero_finite; assumption.
Qed.

End FloatDelta.

(** ** Binary floating point: the update of the concentrations *)

Section FloatUpdate.

Import Binary64.
Local Open Scope float_scope.

Lemma float_set_same (k : KineticalCalculator) :
  set_concentrations k (concentrations k) = k.
Proof. destruct k. reflexivity. Qed.

Lemma float_set_set (k : KineticalCalculator) (xs ys : list float) :
  set_concentrations (set_concentrations k xs) ys = set_concentrations k ys.
Proof. reflexivity. Qed.

(** One pass through lines 131-142 either raises and writes nothing, or
    returns and leaves [next_concentration] in entry [j]. *)
Lemma update_concentration_cases (policy : string) (delta : list number)
    (j : nat) (k : KineticalCalculator) :
  (exists e, update_concentration policy delta j k = (Raise e, k))
  \/ (exists c d,
        concentrations k !! j = Some c /\ delta !! j = Some (Real d)
        /\ update_concentration policy delta j k
           = (Ok tt,
              set_concentrations k
                (<[j := next_concentration policy c d]> (concentrations k)))).
Proof.
  unfold update_concentration, mbind, mread, index.
  destruct (concentrations k !! j) as [c|] eqn:Hc; [|left; eexists; reflexivity].
  destruct (delta !! j) as [[d|]|] eqn:Hd; [| left; eexists; reflexivity..].
  cbn [nadd].
  assert (Hj : (j <? length (concentrations k))%nat = true).
  { apply Nat.ltb_lt. apply lookup_lt_Some in Hc. exact Hc. }
  destruct (0 <? c + d) eqn:E0.
  { right. exists c, d. unfold set_item, next_concentration.
    rewrite Hj, E0. auto. }
  destruct (String.eqb policy "DoNotChange") eqn:E1.
  { right. exists c, d. unfold next_concentration. rewrite E0, E1.
    rewrite list_insert_id by exact Hc. rewrite float_set_same. auto. }
  destruct (String.eqb policy "GoNegetive") eqn:E2.
  { right. exists c, d. unfold set_item, next_concentration.
    rewrite Hj, E0, E1, E2. auto. }
  destruct (String.eqb policy "SetToZero") eqn:E3.
  { right. exists c, d. unfold set_item, next_concentration.
    rewrite Hj, E0, E1, E2. auto. }
  left. eexists. reflexivity.
Qed.

(** The loop of lines 130-142 over the compounds [a], ..., [a + m - 1]:
    whatever its outcome it writes nothing but entries of
    [self.concentrations], each entry it has written holds
    [next_concentration], and when it returns it has written them all. *)
Lemma update_loop_cases (policy : string) (delta : list number) (m : nat) :
  forall a k,
    exists new,
      snd (mfor (seq a m) (update_concentration policy delta) k)
      = set_concentrations k new
      /\ length new = length (concentrations k)
      /\ (forall j, (j < a \/ a + m <= j)%nat ->
            new !! j = concentrations k !! j)
      /\ (forall j x, (a <= j < a + m)%nat -> new !! j = Some x ->
            concentrations k !! j = Some x
            \/ exists c d, concentrations k !! j = Some c
                 /\ delta !! j = Some (Real d)
                 /\ x = next_concentration policy c d)
      /\ (fst (mfor (seq a m) (update_concentration policy delta) k) = Ok tt ->
          forall j, (a <= j < a + m)%nat ->
            exists c d, concentrations k !! j = Some c
              /\ delta !! j = Some (Real d)
              /\ new !! j = Some (next_concentration policy c d)).
Proof.
  induction m as [|m IH]; intros a k.
  - exists (concentrations k). cbn. rewrite float_set_same.
    split; [reflexivity|]. split; [reflexivity|]. split; [auto|].
    split; intros; lia.
  - cbn [seq mfor]. unfold mbind at 1 2.
    destruct (update_concentration_cases policy delta a k)
      as [[e He]|(c & d & Hc & Hd & Hu)].
    + rewrite He. cbn [fst snd]. exists (concentrations k).
      rewrite float_set_same. split; [reflexivity|]. split; [reflexivity|].
      split; [auto|]. split; [auto|]. discriminate.
    + rewrite Hu.
      set (k1 := set_concentrations k
                   (<[a := next_concentration policy c d]> (concentrations k))).
      assert (Hk1 : concentrations k1
                    = <[a := next_concentration policy c d]> (concentrations k))
        by reflexivity.
      assert (Ha : (a < length (concentrations k))%nat)
        by (apply lookup_lt_Some in Hc; exact Hc).
      destruct (IH (S a) k1) as (new & H1 & H2 & H3 & H4 & H5).
      assert (Hnew : new !! a = Some (next_concentration policy c d)).
      { rewrite H3 by lia. rewrite Hk1. apply list_lookup_insert_eq. exact Ha. }
      exists new. split; [rewrite H1; reflexivity|].
      split; [rewrite H2, Hk1; apply length_insert|].
      split.
      { intros j Hj. rewrite H3 by lia. rewrite Hk1.
        apply list_lookup_insert_ne. lia. }
      split.
      { intros j x Hj Hx. destruct (decide (a = j)) as [<-|Hne].
        - rewrite Hnew in Hx. injection Hx as <-. right. exists c, d. auto.
        - destruct (H4 j x ltac:(lia) Hx) as [Hold|(c' & d' & Hc' & Hd' & ->)].
          + rewrite Hk1, list_lookup_insert_ne in Hold by exact Hne.
            left. exact Hold.
          + rewrite Hk1, list_lookup_insert_ne in Hc' by exact Hne.
            right. exists c', d'. auto. }
      intros Hok j Hj. destruct (decide (a = j)) as [<-|Hne].
      * exists c, d. auto.
      * destruct (H5 Hok j ltac:(lia)) as (c' & d' & Hc' & Hd' & Hn).
        rewrite Hk1, list_lookup_insert_ne in Hc' by exact Hne.
        exists c', d'. auto.
Qed.

Section WithPow.

Variable pow : float -> float -> result number.

Lemma accumulate_loop_length (k : KineticalCalculator) (r : nat) (s : side)
    (x : number) (compounds : list nat) :
  forall counter cc cc',
    accumulate_loop k r s compounds counter x cc = Ok cc' ->
    length cc' = length cc.
Proof.
  induction compounds as [|compound rest IH]; intros counter cc cc' H.
  - injection H as <-. reflexivity.
  - cbn [accumulate_loop] in H.
    destruct (index cc compound) as [e|old]; [discriminate|].
    destruct (index (stoichiometric_coefficient_by_reaction k) r) as [e|sto];
      [discriminate|].
    cbn [rbind] in H. destruct (index (pick s sto) counter) as [e|co];
      [discriminate|].
    cbn [rbind] in H. rewrite (IH _ _ _ H). apply length_insert.
Qed.

Lemma reaction_step_length (k : KineticalCalculator) (r : nat)
    (cc cc' : list number) :
  reaction_step pow k cc r = Ok cc' -> length cc' = length cc.
Proof.
  unfold reaction_step. intros H.
  destruct (extent pow k r Forward) as [e|rf]; [discriminate|].
  destruct (extent pow k r Backward) as [e|rb]; [discriminate|].
  cbn [rbind] in H.
  destruct (index (reactions_by_index k) r) as [e|idx]; [discriminate|].
  cbn [rbind] in H.
  destruct (accumulate_loop k r Forward (fst idx) 0 (nsub rb rf) cc)
    as [e|cc1] eqn:H1; [discriminate|].
  cbn [rbind] in H.
  rewrite (accumulate_loop_length _ _ _ _ _ _ _ _ H).
  exact (accumulate_loop_length _ _ _ _ _ _ _ _ H1).
Qed.

Lemma calculate_concentration_change_length (len : nat)
    (k : KineticalCalculator) (delta : list number) :
  calculate_concentration_change pow len k = Ok delta -> length delta = len.
Proof.
  unfold calculate_concentration_change.
  assert (G : forall rs cc cc',
             for_each rs cc (reaction_step pow k) = Ok cc' ->
             length cc' = length cc).
  { induction rs as [|r rs IH]; intros cc cc' H.
    - injection H as <-. reflexivity.
    - cbn [for_each] in H.
      destruct (reaction_step pow k cc r) as [e|cc1] eqn:H1; [discriminate|].
      cbn [rbind] in H. rewrite (IH _ _ H).
      exact (reaction_step_length _ _ _ _ H1). }
  intros H. rewrite (G _ _ _ H). apply length_replicate.
Qed.

(** One update (lines 129-142), whatever its outcome: the object keeps
    everything but the entries of [self.concentrations]; an entry is as
    it was or holds [next_concentration]; after an update that returned,
    every entry holds [next_concentration]. *)
Lemma step_update_cases (policy : string) (k : KineticalCalculator) :
  exists new,
    snd (step_update pow policy (length (concentrations k)) k)
    = set_concentrations k new
    /\ length new = length (concentrations k)
    /\ Forall2 (fun c x => x = c \/ exists d, x = next_concentration policy c d)
         (concentrations k) new
    /\ (fst (step_update pow policy (length (concentrations k)) k) = Ok tt ->
        exists delta,
          calculate_concentration_change pow (length (concentrations k)) k
          = Ok delta
          /\ length delta = length (concentrations k)
          /\ forall j c, concentrations k !! j = Some c ->
               exists d, delta !! j = Some (Real d)
                 /\ new !! j = Some (next_concentration policy c d)).
Proof.
  unfold step_update, mbind, mread.
  destruct (calculate_concentration_change pow (length (concentrations k)) k)
    as [e|delta] eqn:Hd.
  - exists (concentrations k). cbn [fst snd]. rewrite float_set_same.
    split; [reflexivity|]. split; [reflexivity|]. split; [|discriminate].
    apply Forall2_same_length_lookup_2; [reflexivity|].
    intros i x y Hx Hy. left. congruence.
  - pose proof (calculate_concentration_change_length _ _ _ Hd) as L.
    destruct (update_loop_cases policy delta (length delta) 0%nat k)
      as (new & H1 & H2 & H3 & H4 & H5).
    exists new. split; [exact H1|]. split; [exact H2|]. split.
    + apply Forall2_same_length_lookup_2; [symmetry; exact H2|].
      intros i c x Hc Hx.
      assert (Hi : (i < length delta)%nat)
        by (rewrite L; apply lookup_lt_Some in Hc; exact Hc).
      destruct (H4 i x ltac:(lia) Hx) as [Hold|(c' & d & Hc' & _ & ->)].
      * left. congruence.
      * right. exists d. congruence.
    + intros Hok. exists delta. split; [reflexivity|]. split; [exact L|].
      intros j c Hc.
      assert (Hj : (j < length delta)%nat)
        by (rewrite L; apply lookup_lt_Some in Hc; exact Hc).
      destruct (H5 Hok j ltac:(lia)) as (c' & d & Hc' & Hdj & Hn).
      exists d. split; [exact Hdj|]. congruence.
Qed.

(** The updates of a run keep the step and the number of compounds. *)
Lemma repeat_update_frame (policy : string) (len : nat) (n : nat) :
  forall k, len = length (concentrations k) ->
    exists new,
      snd (repeat_method n (step_update pow policy len) k)
      = set_concentrations k new
      /\ length new = length (concentrations k).
Proof.
  induction n as [|n IH]; intros k ->.
  - exists (concentrations k). split; [symmetry; apply float_set_same|reflexivity].
  - cbn [repeat_method]. unfold mbind.
    destruct (step_update_cases policy k) as (new & H1 & H2 & _).
    destruct (step_update pow policy (length (concentrations k)) k)
      as [[e|[]] k1]; cbn [snd] in H1 |- *.
    + exists new. auto.
    + subst k1. destruct (IH (set_concentrations k new)) as (new' & H3 & H4).
      { cbn. symmetry. exact H2. }
      exists new'. split; [rewrite H3; reflexivity|].
      rewrite H4. cbn. exact H2.
Qed.

(** A property of the single entries that every written value has again
    is kept by an update, whatever the outcome of the update. *)
Lemma step_update_preserves (P : float -> Prop) (policy : string)
    (k : KineticalCalculator) :
  (forall c d, P c -> P (next_concentration policy c d)) ->
  Forall P (concentrations k) ->
  Forall P (concentrations (snd (step_update pow policy
                                   (length (concentrations k)) k))).
Proof.
  intros HP Hk. destruct (step_update_cases policy k) as (new & H1 & _ & H3 & _).
  rewrite H1. cbn [concentrations set_concentrations]. clear H1.
  revert Hk. induction H3 as [|c x cs xs Hcx _ IH]; intros Hk; [constructor|].
  apply Forall_cons in Hk. destruct Hk as [Hc Hcs].
  constructor; [|apply IH; exact Hcs].
  destruct Hcx as [->|[d ->]]; [exact Hc|apply HP; exact Hc].
Qed.

Lemma repeat_update_preserves (P : float -> Prop) (policy : string) (n : nat) :
  (forall c d, P c -> P (next_concentration policy c d)) ->
  forall k len, len = length (concentrations k) ->
    Forall P (concentrations k) ->
    Forall P (concentrations (snd (repeat_method n (step_update pow policy len) k))).
Proof.
  intros HP. induction n as [|n IH]; intros k len -> Hk; [exact Hk|].
  cbn [repeat_method]. unfold mbind.
  pose proof (step_update_preserves P policy k HP Hk) as H1.
  destruct (step_update_cases policy k) as (new & H2 & H3 & _).
  destruct (step_update pow policy (length (concentrations k)) k)
    as [[e|[]] k1]; cbn [snd] in *; [exact H1|].
  apply IH; [|exact H1]. subst k1. cbn. symmetry. exact H3.
Qed.

End WithPow.

End FloatUpdate.

(** ** Binary floating point: the time-stepping loop *)

Section FloatRun.

Import Binary64.
Local Open Scope float_scope.

Variable pow : float -> float -> result number.

Lemma float_record_loop_filter (k : KineticalCalculator) (t : float)
    (checkpoint_time : list float) :
  forall rows,
    record_loop k t checkpoint_time rows
    = rows ++ map (fun c => Snapshot c (concentrations k))
                (List.filter (in_interval t (accuracy k)) checkpoint_time).
Proof.
  induction checkpoint_time as [|c rest IH]; intros rows.
  - cbn. rewrite app_nil_r. reflexivity.
  - cbn [record_loop List.filter]. rewrite IH. unfold in_interval at 2.
    destruct ((t <=? c) && (c <? t + accuracy k)).
    + cbn [map]. rewrite <- app_assoc. reflexivity.
    + reflexivity.
Qed.

Lemma repeat_method_step (policy : string) (len n : nat)
    (k k1 : KineticalCalculator) :
  step_update pow policy len k = (Ok tt, k1) ->
  repeat_method (S n) (step_update pow policy len) k
  = repeat_method n (step_update pow policy len) k1.
Proof. intros H. cbn [repeat_method]. unfold mbind. rewrite H. reflexivity. Qed.

(** The loop of [calculate] is a row of updates, stopped by the first one
    that raises; iteration [i] records with the state that [i + 1] updates
    have left and with the time that [i] additions of the step have made
    of the first one. *)
Lemma time_loop_run (policy : string) (checkpoint_time : list float)
    (len : nat) (its : list nat) :
  forall t rows k, len = length (concentrations k) ->
    time_loop pow policy checkpoint_time len its t rows k
    = match repeat_method (length its) (step_update pow policy len) k with
      | (Raise e, k') => (Raise e, k')
      | (Ok _, k') =>
          (Ok (Nat.iter (length its) (fun t => t + accuracy k) t,
               rows
               ++ concat
                    (map (fun i =>
                            map (fun c =>
                                   Snapshot c
                                     (concentrations
                                        (snd (repeat_method (S i)
                                                (step_update pow policy len) k))))
                              (List.filter
                                 (in_interval
                                    (Nat.iter i (fun t => t + accuracy k) t)
                                    (accuracy k))
                                 checkpoint_time))
                       (seq 0 (length its)))),
           k')
      end.
Proof.
  induction its as [|it rest IH]; intros t rows k Hlen.
  - cbn. unfold mret. rewrite app_nil_r. reflexivity.
  - cbn [time_loop length]. unfold mbind at 1.
    destruct (step_update pow policy len k) as [[e|[]] k1] eqn:Hs.
    + cbn [repeat_method]. unfold mbind. rewrite Hs. reflexivity.
    + rewrite (repeat_method_step policy len _ k k1 Hs).
      destruct (step_update_cases pow policy k) as (new & H1 & H2 & _).
      rewrite <- Hlen, Hs in H1. cbn [snd] in H1.
      assert (Hacc : accuracy k1 = accuracy k) by (rewrite H1; reflexivity).
      assert (Hlen1 : len = length (concentrations k1))
        by (rewrite H1; cbn; congruence).
      unfold mbind at 1. unfold mread at 1.
      unfold mbind at 1. unfold mread at 1.
      rewrite (IH _ _ k1 Hlen1). rewrite Hacc.
      destruct (repeat_method (length rest) (step_update pow policy len) k1)
        as [[e|[]] k'] eqn:Hr; [reflexivity|].
      f_equal. f_equal. f_equal.
      { rewrite Nat.iter_succ_r. reflexivity. }
      rewrite float_record_loop_filter, Hacc, <- app_assoc. f_equal.
      cbn [seq map concat]. f_equal.
      { f_equal. cbn [repeat_method]. unfold mbind. rewrite Hs. reflexivity. }
      rewrite <- seq_shift, map_map. f_equal. apply map_ext. intros i.
      rewrite (repeat_method_step policy len _ k k1 Hs).
      rewrite Nat.iter_succ_r. reflexivity.
Qed.

Lemma float_calculate_unfold (time : float) (checkpoint_time : list float)
    (policy : string) (k : KineticalCalculator) (q : float) (n : Z) :
  fitted k = true -> py_div time (accuracy k) = Ok q -> py_int (q + 1) = Ok n ->
  calculate pow time checkpoint_time policy k
  = match
      time_loop pow policy checkpoint_time (length (concentrations k))
        (range n) 0 [Header (compounds_unicode_formula (enviroment k))] k
    with
    | (Raise e, k') => (Raise e, k')
    | (Ok final, k') => (Ok (snd final ++ [Snapshot time (concentrations k')]), k')
    end.
Proof.
  intros Hf Hq Hn. unfold calculate.
  unfold mbind at 1. unfold mread at 1. rewrite Hf. cbn [negb].
  do 3 (unfold mbind at 1; unfold mread at 1). rewrite Hq.
  unfold mbind at 1. unfold mread at 1. rewrite Hn.
  unfold mbind at 1. destruct (time_loop _ _ _ _ _ _ _ k) as [[e|final] k'].
  - reflexivity.
  - unfold mbind, mread, mret. reflexivity.
Qed.

(** A run of a fitted calculator whose number of iterations
    [int(time/self.accuracy+1)] has the value [n]: the outcome and the
    state are those of [n] updates in a row, and a run that returns
    returns the header, the rows that the iterations recorded and the
    final pair. *)
Lemma calculate_run (time : float) (checkpoint_time : list float)
    (policy : string) (k : KineticalCalculator) (q : float) (n : Z) :
  fitted k = true -> py_div time (accuracy k) = Ok q -> py_int (q + 1) = Ok n ->
  calculate pow time checkpoint_time policy k
  = match
      repeat_method (Z.to_nat n)
        (step_update pow policy (length (concentrations k))) k
    with
    | (Raise e, k') => (Raise e, k')
    | (Ok _, k') =>
        (Ok (Header (compounds_unicode_formula (enviroment k))
             :: recorded pow policy checkpoint_time k 0 (Z.to_nat n)
             ++ [Snapshot time (concentrations k')]),
         k')
    end.
Proof.
  intros Hf Hq Hn.
  rewrite (float_calculate_unfold time checkpoint_time policy k q n Hf Hq Hn).
  rewrite time_loop_run by reflexivity.
  unfold range. rewrite length_seq.
  destruct (repeat_method (Z.to_nat n) _ k) as [[e|[]] k']; reflexivity.
Qed.

Lemma float_in_recorded_at (policy : string) (checkpoint_time : list float)
    (k : KineticalCalculator) (i : nat) (row : Row) :
  In row (recorded_at pow policy checkpoint_time k i)
  <-> exists c, In c checkpoint_time
        /\ (tick_time (accuracy k) i <=? c) = true
        /\ (c <? tick_time (accuracy k) i + accuracy k) = true
        /\ row = Snapshot c (concentrations (state_after pow policy (S i) k)).
Proof.
  unfold recorded_at. rewrite in_map_iff. split.
  - intros (c & <- & Hc). apply filter_In in Hc. destruct Hc as [Hin Hc].
    unfold in_interval in Hc. apply andb_true_iff in Hc.
    exists c. tauto.
  - intros (c & Hin & H1 & H2 & ->). exists c. split; [reflexivity|].
    apply filter_In. split; [exact Hin|].
    unfold in_interval. apply andb_true_iff. tauto.
Qed.

Lemma float_in_recorded (policy : string) (checkpoint_time : list float)
    (k : KineticalCalculator) (a m : nat) (row : Row) :
  In row (recorded pow policy checkpoint_time k a m)
  <-> exists i, (a <= i < a + m)%nat
        /\ In row (recorded_at pow policy checkpoint_time k i).
Proof.
  unfold recorded. rewrite in_concat. split.
  - intros (l & Hl & Hrow). apply in_map_iff in Hl. destruct Hl as (i & <- & Hi).
    apply in_seq in Hi. exists i. split; [lia | exact Hrow].
  - intros (i & Hi & Hrow). exists (recorded_at pow policy checkpoint_time k i).
    split; [|exact Hrow]. apply in_map_iff. exists i. split; [reflexivity|].
    apply in_seq. lia.
Qed.

(** The updates before one that returns return. *)
Lemma repeat_method_prefix (policy : string) (len : nat) (n : nat) :
  forall k i, (i <= n)%nat ->
    fst (repeat_method n (step_update pow policy len) k) = Ok tt ->
    fst (repeat_method i (step_update pow policy len) k) = Ok tt.
Proof.
  induction n as [|n IH]; intros k i Hi Hn.
  - replace i with 0%nat by lia. reflexivity.
  - destruct i as [|i]; [reflexivity|].
    cbn [repeat_method] in *. unfold mbind in *.
    destruct (step_update pow policy len k) as [[e|[]] k1]; [exact Hn|].
    apply IH; [lia|exact Hn].
Qed.

Lemma recorded_numbered_rows (policy : string) (checkpoint_time : list float)
    (k : KineticalCalculator) (m : nat) :
  forall a,
    map snd (recorded_numbered pow policy checkpoint_time k a m)
    = recorded pow policy checkpoint_time k a m.
Proof.
  induction m as [|m IH]; intros a; [reflexivity|].
  unfold recorded_numbered, recorded in *. cbn [seq map concat].
  rewrite map_app, IH, map_map. cbn [snd]. rewrite map_id. reflexivity.
Qed.

Lemma recorded_numbered_sorted (policy : string) (checkpoint_time : list float)
    (k : KineticalCalculator) (m : nat) :
  forall a,
    StronglySorted Nat.le
      (map fst (recorded_numbered pow policy checkpoint_time k a m))
    /\ Forall (fun i => (a <= i)%nat)
         (map fst (recorded_numbered pow policy checkpoint_time k a m)).
Proof.
  induction m as [|m IH]; intros a.
  - split; constructor.
  - unfold recorded_numbered in *. cbn [seq map concat].
    rewrite map_app, map_map. cbn [fst].
    destruct (IH (S a)) as [IH1 IH2].
    set (tail := map fst (concat _)) in *.
    set (group := recorded_at pow policy checkpoint_time k a).
    induction group as [|row group IHg]; cbn [map app].
    + split; [exact IH1|].
      eapply Forall_impl; [exact IH2|]. intros i Hi. cbn beta in Hi. lia.
    + destruct IHg as [G1 G2]. split.
      * constructor; [exact G1|]. exact G2.
      * constructor; [lia|exact G2].
Qed.

End FloatRun.

(** ** Binary floating point: the guard of lines 105 and 113 *)

Section FloatGuard.

Import Binary64.
Local Open Scope float_scope.

Variables pow pow' : float -> float -> result number.

Hypothesis agree :
  forall c e, singular c e = false -> pow' c e = pow c e.

Lemma extent_loop_agree (k : KineticalCalculator) (r : nat) (s : side)
    (compounds : list nat) :
  forall counter x,
    extent_loop pow' k r s compounds counter x
    = extent_loop pow k r s compounds counter x.
Proof.
  induction compounds as [|compound rest IH]; intros counter x; [reflexivity|].
  cbn [extent_loop].
  destruct (index (concentrations k) compound) as [err|c]; [reflexivity|].
  cbn [rbind].
  destruct (index (rate_dependency_by_reaction k) r) as [err|dep]; [reflexivity|].
  cbn [rbind].
  destruct (index (pick s dep) counter) as [err|e]; [reflexivity|].
  cbn [rbind]. fold (singular c e).
  destruct (singular c e) eqn:Hs; cbn [negb rbind]; [apply IH|].
  rewrite (agree c e Hs).
  destruct (pow c e) as [err|p]; cbn [rbind]; [reflexivity|apply IH].
Qed.

Lemma reaction_step_agree (k : KineticalCalculator) (cc : list number) (r : nat) :
  reaction_step pow' k cc r = reaction_step pow k cc r.
Proof.
  unfold reaction_step, extent.
  destruct (index (rate_constants k) r) as [err|ks]; [reflexivity|].
  cbn [rbind].
  destruct (index (reactions_by_index k) r) as [err|idx]; [reflexivity|].
  cbn [rbind]. rewrite !extent_loop_agree. reflexivity.
Qed.

Lemma calculate_concentration_change_agree (len : nat) (k : KineticalCalculator) :
  calculate_concentration_change pow' len k
  = calculate_concentration_change pow len k.
Proof.
  unfold calculate_concentration_change.
  generalize (replicate len (Real 0)).
  induction (seq 0 (number_of_reactions k)) as [|r rs IH]; intros cc;
    [reflexivity|].
  cbn [for_each]. rewrite reaction_step_agree.
  destruct (reaction_step pow k cc r) as [err|cc1]; cbn [rbind];
    [reflexivity|apply IH].
Qed.

End FloatGuard.

(** ** Binary floating point: the theorems on the step-delta computation *)

Section FloatDeltaTheorems.

Import Binary64.
Local Open Scope float_scope.

Variable pow : float -> float -> result number.

(** C1 (as amended), in binary floating point.  In a bound calculator the
    extent of each side of each reaction is the running product of the
    code: it starts from [step_size * rate_constant] and takes in the
    powers [concentration ** exponent] of the side from left to right,
    each product rounded, a factor with a base that is exactly 0 under a
    negative exponent putting 0 in its place instead of being raised to its
    power; where no factor is of this kind and every power is a float, this
    is the product [((step_size * rate_constant) * p1) * ... * pn].  The
    step-delta computation raises what the first extent to raise raises
    (forward before backward, reaction after reaction); otherwise it
    returns a vector with one entry per compound, the entry of compound [j]
    being the sum, taken from 0 in the order of the code, of
    [(rb - rf) * coefficient] for every reactant position that holds [j]
    and of [(rf - rb) * coefficient] for every product position that holds
    [j], over all reactions. *)
Theorem step_delta_in_order (k : KineticalCalculator) :
  bound k = true ->
  (forall r s, (r < number_of_reactions k)%nat ->
     extent pow k r s = extent_of pow k r s
     /\ forall ps,
          Forall2 (fun f p => singular (fst f) (snd f) = false
                              /\ pow (fst f) (snd f) = Ok (Real p))
            (side_factors k r s) ps ->
          extent pow k r s
          = Ok (Real (fold_left mul ps (accuracy k * rate_constant k r s))))
  /\ match extents_of pow k (seq 0 (number_of_reactions k)) with
     | Raise e =>
         calculate_concentration_change pow (length (concentrations k)) k
         = Raise e
     | Ok xs =>
         exists delta,
           calculate_concentration_change pow (length (concentrations k)) k
           = Ok delta
           /\ length delta = length (concentrations k)
           /\ forall j, (j < length (concentrations k))%nat ->
                delta !! j = Some (running_sum (Real 0) (terms_of k j 0 xs))
     end.
Proof.
  intros Hb. split.
  - intros r s Hr. split; [apply extent_running; assumption|].
    intros ps Hps. rewrite (extent_running pow k r s Hb Hr).
    apply running_product_regular. exact Hps.
  - apply calculate_concentration_change_terms. exact Hb.
Qed.

(** C2 (as amended), in binary floating point.  In a bound calculator,
    take a side of a reaction with a factor whose concentration is
    exactly 0 under a negative rate exponent.  The power of this factor
    is never evaluated: the step-delta computation is the same for any two
    power operators that agree on all other pairs.  The extent of the
    side is what the factors after it make of 0, once the factors before it
    have been evaluated; it is a zero when every factor before it is
    guarded or has a power, and every factor after it is guarded or has a
    finite float as its power. *)
Theorem zero_guard_skips_power (k : KineticalCalculator) (r : nat) (s : side)
    (i : nat) (c e : float) :
  bound k = true -> (r < number_of_reactions k)%nat ->
  side_factors k r s !! i = Some (c, e) ->
  (c =? 0) = true -> (e <? 0) = true ->
  let before := take i (side_factors k r s) in
  let after := drop (S i) (side_factors k r s) in
  (forall pow' : float -> float -> result number,
     (forall c' e', singular c' e' = false -> pow' c' e' = pow c' e') ->
     calculate_concentration_change pow' (length (concentrations k)) k
     = calculate_concentration_change pow (length (concentrations k)) k)
  /\ extent pow k r s
     = (let! _ := running_product pow
                    (Real (accuracy k * rate_constant k r s)) before in
        running_product pow (Real 0) after)
  /\ (Forall (fun f => singular (fst f) (snd f) = true
                       \/ exists v, pow (fst f) (snd f) = Ok v) before ->
      Forall (fun f => singular (fst f) (snd f) = true
                       \/ exists p, pow (fst f) (snd f) = Ok (Real p)
                                    /\ finite p = true) after ->
      exists x, extent pow k r s = Ok (Real x) /\ (x =? 0) = true).
Proof.
  intros Hb Hr Hi Hc He before after.
  assert (Hs : singular (fst (c, e)) (snd (c, e)) = true)
    by (unfold singular; cbn [fst snd]; rewrite Hc, He; reflexivity).
  assert (Hext : extent pow k r s
                 = (let! _ := running_product pow
                                (Real (accuracy k * rate_constant k r s)) before in
                    running_product pow (Real 0) after)).
  { rewrite (extent_running pow k r s Hb Hr). unfold extent_of.
    rewrite <- (take_drop_middle _ _ _ Hi) at 1.
    apply running_product_guarded. exact Hs. }
  split; [|split].
  - intros pow' Hagree. apply calculate_concentration_change_agree. exact Hagree.
  - exact Hext.
  - intros Hbefore Hafter. rewrite Hext.
    destruct (running_product_returns pow before Hbefore
                (Real (accuracy k * rate_constant k r s))) as [y Hy].
    rewrite Hy. cbn [rbind].
    apply (running_product_zero pow after Hafter 0). reflexivity.
Qed.

End FloatDeltaTheorems.

(** ** Binary floating point: the theorems on the run *)

Section FloatRunTheorems.

Import Binary64.
Local Open Scope float_scope.

Variable pow : float -> float -> result number.

(** C6 (as amended), in binary floating point.  On a fitted calculator,
    when [time / self.accuracy] has the value [q] and [int(q + 1)] the
    value [n], both as the machine computes them, the loop of the run has
    [n] iterations: the run ends as [n] per-step updates in a row end,
    with the exception of the first update that raises or, when all of
    them return, with its result, and it leaves the state that they leave.
    The local [t] starts at 0 and each iteration adds the step to it. *)
Theorem update_count_of_run (time : float) (checkpoint_time : list float)
    (policy : string) (k : KineticalCalculator) (q : float) (n : Z) :
  fitted k = true -> py_div time (accuracy k) = Ok q -> py_int (q + 1) = Ok n ->
  let update := step_update pow policy (length (concentrations k)) in
  let header := Header (compounds_unicode_formula (enviroment k)) in
  length (range n) = Z.to_nat n
  /\ snd (calculate pow time checkpoint_time policy k)
     = snd (repeat_method (Z.to_nat n) update k)
  /\ (forall e,
        fst (calculate pow time checkpoint_time policy k) = Raise e
        <-> fst (repeat_method (Z.to_nat n) update k) = Raise e)
  /\ (fst (repeat_method (Z.to_nat n) update k) = Ok tt ->
      (forall i, (i <= Z.to_nat n)%nat -> fst (repeat_method i update k) = Ok tt)
      /\ exists rows,
           time_loop pow policy checkpoint_time (length (concentrations k))
             (range n) 0 [header] k
           = (Ok (tick_time (accuracy k) (Z.to_nat n), rows),
              snd (repeat_method (Z.to_nat n) update k)))
  /\ tick_time (accuracy k) 0 = 0
  /\ (forall i, tick_time (accuracy k) (S i) = tick_time (accuracy k) i + accuracy k).
Proof.
  intros Hf Hq Hn update header.
  split; [unfold range; apply length_seq|].
  pose proof (calculate_run pow time checkpoint_time policy k q n Hf Hq Hn) as H.
  fold update in H.
  split; [|split; [|split; [|split; [reflexivity|reflexivity]]]].
  - rewrite H. destruct (repeat_method (Z.to_nat n) update k) as [[e|[]] k'];
      reflexivity.
  - intros e. rewrite H.
    destruct (repeat_method (Z.to_nat n) update k) as [[e'|[]] k']; cbn [fst];
      split; congruence.
  - intros Hok. split.
    + intros i Hi. apply (repeat_method_prefix pow policy _ (Z.to_nat n)); assumption.
    + rewrite time_loop_run by reflexivity. fold update.
      unfold range. rewrite length_seq.
      destruct (repeat_method (Z.to_nat n) update k) as [[e|[]] k'];
        [discriminate|].
      eexists. reflexivity.
Qed.

(** C4 (as amended), in binary floating point.  A run as in C6 ends with
    the exception of the first update that raises, or returns the header,
    the rows recorded by its [n] iterations and the final pair.  Iteration
    [i] records the pair [(c, copy of the concentrations)], with the
    concentrations that [i + 1] updates have left, for exactly the values
    [c] of [checkpoint_time] with [t <= c < t + step], where [t] is the step
    added [i] times to 0; so the loop records a value exactly when it lies
    in one of these [n] intervals. *)
Theorem checkpoint_recorded_in_interval (time : float)
    (checkpoint_time : list float) (policy : string) (k : KineticalCalculator)
    (q : float) (n : Z) :
  fitted k = true -> py_div time (accuracy k) = Ok q -> py_int (q + 1) = Ok n ->
  calculate pow time checkpoint_time policy k
  = match
      repeat_method (Z.to_nat n)
        (step_update pow policy (length (concentrations k))) k
    with
    | (Raise e, k') => (Raise e, k')
    | (Ok _, k') =>
        (Ok (Header (compounds_unicode_formula (enviroment k))
             :: recorded pow policy checkpoint_time k 0 (Z.to_nat n)
             ++ [Snapshot time (concentrations k')]),
         k')
    end
  /\ (completes pow policy (Z.to_nat n) k ->
      forall i, (i <= Z.to_nat n)%nat -> completes pow policy i k)
  /\ (forall i row,
        In row (recorded_at pow policy checkpoint_time k i)
        <-> exists c, In c checkpoint_time
              /\ (tick_time (accuracy k) i <=? c) = true
              /\ (c <? tick_time (accuracy k) i + accuracy k) = true
              /\ row = Snapshot c
                         (concentrations (state_after pow policy (S i) k)))
  /\ (forall c cs,
        In (Snapshot c cs) (recorded pow policy checkpoint_time k 0 (Z.to_nat n))
        <-> exists i, (i < Z.to_nat n)%nat /\ In c checkpoint_time
              /\ in_interval (tick_time (accuracy k) i) (accuracy k) c = true
              /\ cs = concentrations (state_after pow policy (S i) k)).
Proof.
  intros Hf Hq Hn.
  split; [apply (calculate_run pow time checkpoint_time policy k q n Hf Hq Hn)|].
  split.
  { intros Hall i Hi. unfold completes in *.
    apply (repeat_method_prefix pow policy _ (Z.to_nat n)); assumption. }
  split; [intros i row; apply float_in_recorded_at|].
  intros c cs. rewrite float_in_recorded. split.
  - intros (i & Hi & Hin). apply float_in_recorded_at in Hin.
    destruct Hin as (c' & Hc & H1 & H2 & E). injection E as <- ->.
    exists i. split; [lia|]. split; [exact Hc|]. split; [|reflexivity].
    unfold in_interval. rewrite H1, H2. reflexivity.
  - intros (i & Hi & Hc & Hin & ->). exists i. split; [lia|].
    apply float_in_recorded_at. exists c.
    unfold in_interval in Hin. apply andb_true_iff in Hin. tauto.
Qed.

(** C5 (as amended), in binary floating point.  A run as in C6 that
    returns, returns the header, then the rows that the iterations
    recorded, then the pair [(time, concentrations)], whatever the
    checkpoints were.  The rows of an earlier iteration come before those
    of a later one, and the rows of one iteration come in the order in
    which [checkpoint_time] lists their times. *)
Theorem result_rows_in_order (time : float) (checkpoint_time : list float)
    (policy : string) (k : KineticalCalculator) (q : float) (n : Z) :
  fitted k = true -> py_div time (accuracy k) = Ok q -> py_int (q + 1) = Ok n ->
  let numbered :=
    recorded_numbered pow policy checkpoint_time k 0 (Z.to_nat n) in
  calculate pow time checkpoint_time policy k
  = match
      repeat_method (Z.to_nat n)
        (step_update pow policy (length (concentrations k))) k
    with
    | (Raise e, k') => (Raise e, k')
    | (Ok _, k') =>
        (Ok (Header (compounds_unicode_formula (enviroment k))
             :: map snd numbered ++ [Snapshot time (concentrations k')]),
         k')
    end
  /\ StronglySorted Nat.le (map fst numbered)
  /\ numbered
     = concat
         (map (fun i =>
                 map (fun c =>
                        (i, Snapshot c
                              (concentrations (state_after pow policy (S i) k))))
                   (List.filter
                      (in_interval (tick_time (accuracy k) i) (accuracy k))
                      checkpoint_time))
            (seq 0 (Z.to_nat n))).
Proof.
  intros Hf Hq Hn numbered.
  split; [|split].
  - subst numbered. rewrite recorded_numbered_rows.
    apply (calculate_run pow time checkpoint_time policy k q n Hf Hq Hn).
  - apply recorded_numbered_sorted.
  - subst numbered. unfold recorded_numbered. f_equal. apply map_ext.
    intros i. unfold recorded_at. rewrite map_map. reflexivity.
Qed.

(** C10, in binary floating point.  Under ["SetToZero"], whatever the
    signs of the concentrations and of the changes: after an update that
    returns, every entry of [self.concentrations] is a candidate that is
    strictly positive or the 0 of line 139, hence [>= 0]; and an update
    of a vector whose entries are all [>= 0] leaves such a vector whether
    it returns or raises, so the entries stay [>= 0] through all further
    updates. *)
Theorem clamp_nonnegative_after_update (k : KineticalCalculator) :
  let update := step_update pow "SetToZero" (length (concentrations k)) in
  (forall k1, update k = (Ok tt, k1) ->
     Forall (fun x => (0 <? x) = true \/ x = 0) (concentrations k1)
     /\ Forall (fun x => (0 <=? x) = true) (concentrations k1)
     /\ forall n,
          Forall (fun x => (0 <=? x) = true)
            (concentrations (snd (repeat_method n update k1))))
  /\ (Forall (fun x => (0 <=? x) = true) (concentrations k) ->
      forall n,
        Forall (fun x => (0 <=? x) = true)
          (concentrations (snd (repeat_method n update k)))).
Proof.
  intros update.
  assert (Hnext : forall c d,
             (0 <? next_concentration "SetToZero" c d) = true
             \/ next_concentration "SetToZero" c d = 0).
  { intros c d. unfold next_concentration.
    destruct (0 <? c + d) eqn:E; [left; exact E|right; reflexivity]. }
  assert (Hnonneg : forall c d,
             (0 <=? next_concentration "SetToZero" c d) = true).
  { intros c d. destruct (Hnext c d) as [H|H]; [apply ltb_leb; exact H|].
    rewrite H. reflexivity. }
  assert (Hkeep : forall k0 len n, len = length (concentrations k0) ->
             Forall (fun x => (0 <=? x) = true) (concentrations k0) ->
             Forall (fun x => (0 <=? x) = true)
               (concentrations
                  (snd (repeat_method n (step_update pow "SetToZero" len) k0)))).
  { intros k0 len n Hlen H0.
    apply (repeat_update_preserves pow (fun x => (0 <=? x) = true));
      [intros c d _; apply Hnonneg|exact Hlen|exact H0]. }
  split.
  - intros k1 Hk1.
    destruct (step_update_cases pow "SetToZero" k) as (new & H1 & H2 & _ & H4).
    fold update in H1, H4. rewrite Hk1 in H1, H4. cbn [fst snd] in H1, H4.
    destruct (H4 eq_refl) as (delta & _ & _ & Hall).
    assert (Hpos : Forall (fun x => (0 <? x) = true \/ x = 0) (concentrations k1)).
    { rewrite H1. cbn [concentrations set_concentrations].
      apply Forall_lookup_2. intros j x Hx.
      destruct (lookup_lt_is_Some_2 (concentrations k) j) as [c Hc].
      { rewrite <- H2. apply lookup_lt_Some in Hx. exact Hx. }
      destruct (Hall j c Hc) as (d & _ & Hn). rewrite Hx in Hn.
      injection Hn as ->. apply Hnext. }
    assert (Hge : Forall (fun x => (0 <=? x) = true) (concentrations k1)).
    { eapply Forall_impl; [exact Hpos|]. intros x [Hx|Hx];
        [apply ltb_leb; exact Hx|rewrite Hx; reflexivity]. }
    split; [exact Hpos|]. split; [exact Hge|].
    intros n. apply Hkeep; [|exact Hge]. rewrite H1. cbn. symmetry. exact H2.
  - intros H0 n. apply Hkeep; [reflexivity|exact H0].
Qed.

End FloatRunTheorems.

(** ** Binary floating point: runs one after the other, and the policies *)

Section FloatFurther.

Import Binary64.
Local Open Scope float_scope.

Variable pow : float -> float -> result number.

Lemma float_repeat_method_add (m : method unit) (a b : nat) :
  forall k,
    repeat_method (a + b) m k
    = match repeat_method a m k with
      | (Raise e, k') => (Raise e, k')
      | (Ok _, k') => repeat_method b m k'
      end.
Proof.
  induction a as [|a IH]; intros k; [reflexivity|].
  cbn [Nat.add repeat_method]. unfold mbind.
  destruct (m k) as [[e|[]] k1]; [reflexivity|apply IH].
Qed.

(** Whatever the outcome of the updates, each entry after them is related
    to the entry before them by any relation that holds between a value
    and itself, between a value and what lines 131-139 put in its place,
    and along chains. *)
Lemma repeat_update_related (R : float -> float -> Prop) (policy : string)
    (n : nat) :
  (forall c, R c c) -> (forall c x y, R c x -> R x y -> R c y) ->
  (forall c d, R c (next_concentration policy c d)) ->
  forall k len, len = length (concentrations k) ->
    Forall2 R (concentrations k)
      (concentrations (snd (repeat_method n (step_update pow policy len) k))).
Proof.
  intros Hrefl Htrans Hnext. induction n as [|n IH]; intros k len ->.
  - cbn. apply Forall2_same_length_lookup_2; [reflexivity|].
    intros i x y Hx Hy. rewrite Hx in Hy. injection Hy as <-. apply Hrefl.
  - cbn [repeat_method]. unfold mbind.
    destruct (step_update_cases pow policy k) as (new & H1 & H2 & H3 & _).
    assert (Hstep : Forall2 R (concentrations k) new).
    { eapply Forall2_impl; [exact H3|]. intros c x [->|[d ->]];
        [apply Hrefl|apply Hnext]. }
    destruct (step_update pow policy (length (concentrations k)) k)
      as [[e|[]] k1]; cbn [snd] in H1 |- *; subst k1.
    + exact Hstep.
    + eapply Forall2_trans; [exact Htrans|exact Hstep|].
      apply (IH (set_concentrations k new)). cbn. symmetry. exact H2.
Qed.

(** X3, in binary floating point.  The loop of [calculate] has no
    iteration when [int(time/self.accuracy+1)], as the machine computes
    it, is not positive: on a fitted calculator the run then returns just
    the header and the pair [(time, concentrations)] and leaves the
    calculator as it was, without looking at the network, the checkpoint
    times or the policy. *)
Theorem nonpositive_count_no_update (time : float) (checkpoint_time : list float)
    (policy : string) (k : KineticalCalculator) (q : float) (n : Z) :
  fitted k = true -> py_div time (accuracy k) = Ok q -> py_int (q + 1) = Ok n ->
  (n <= 0)%Z ->
  calculate pow time checkpoint_time policy k
  = (Ok [Header (compounds_unicode_formula (enviroment k));
         Snapshot time (concentrations k)], k).
Proof.
  intros Hf Hq Hn Hle.
  rewrite (calculate_run pow time checkpoint_time policy k q n Hf Hq Hn).
  replace (Z.to_nat n) with 0%nat by lia. reflexivity.
Qed.

(** X10, in binary floating point.  Under the policy ["DoNotChange"] a
    concentration that is positive stays positive and one that is not
    negative stays not negative through any number of updates, whether
    they return or raise. *)
Theorem freeze_keeps_sign_of_entries (k : KineticalCalculator) (n : nat) :
  Forall2 (fun c x => ((0 <? c) = true -> (0 <? x) = true)
                      /\ ((0 <=? c) = true -> (0 <=? x) = true))
    (concentrations k)
    (concentrations
       (snd (repeat_method n
               (step_update pow "DoNotChange" (length (concentrations k))) k))).
Proof.
  apply (repeat_update_related
           (fun c x => ((0 <? c) = true -> (0 <? x) = true)
                       /\ ((0 <=? c) = true -> (0 <=? x) = true))).
  - intros c. split; auto.
  - intros c x y [H1 H2] [H3 H4]. split; auto.
  - intros c d. unfold next_concentration.
    destruct (0 <? c + d) eqn:E; [|split; auto].
    split; intros _; [exact E|apply ltb_leb; exact E].
  - reflexivity.
Qed.

(** X12, in binary floating point.  A second run on the same calculator
    goes on from the concentrations that the first one left, and counts
    its time and its iterations from 0 again: after a first run that
    returned, the second run ends as the updates of both runs in a row,
    [int(time1/self.accuracy+1) + int(time2/self.accuracy+1)] of them,
    end on the first state, and leaves the state that they leave. *)
Theorem runs_one_after_the_other (time1 time2 : float)
    (checkpoints1 checkpoints2 : list float) (policy : string)
    (k : KineticalCalculator) (q1 q2 : float) (n1 n2 : Z)
    (rows1 : list Row) (k1 : KineticalCalculator) :
  fitted k = true ->
  py_div time1 (accuracy k) = Ok q1 -> py_int (q1 + 1) = Ok n1 ->
  py_div time2 (accuracy k) = Ok q2 -> py_int (q2 + 1) = Ok n2 ->
  calculate pow time1 checkpoints1 policy k = (Ok rows1, k1) ->
  let update := step_update pow policy (length (concentrations k)) in
  let both := repeat_method (Z.to_nat n1 + Z.to_nat n2) update k in
  k1 = snd (repeat_method (Z.to_nat n1) update k)
  /\ snd (calculate pow time2 checkpoints2 policy k1) = snd both
  /\ (forall e, fst (calculate pow time2 checkpoints2 policy k1) = Raise e
                <-> fst both = Raise e)
  /\ (forall rows2, fst (calculate pow time2 checkpoints2 policy k1) = Ok rows2 ->
        fst both = Ok tt
        /\ last rows2 = Some (Snapshot time2 (concentrations (snd both)))).
Proof.
  intros Hf Hq1 Hn1 Hq2 Hn2 Hrun update both.
  rewrite (calculate_run pow time1 checkpoints1 policy k q1 n1 Hf Hq1 Hn1) in Hrun.
  fold update in Hrun.
  destruct (repeat_update_frame pow policy (length (concentrations k))
              (Z.to_nat n1) k eq_refl) as (new & Hk1 & Hlen).
  fold update in Hk1.
  assert (Hboth : both = repeat_method (Z.to_nat n2) update k1).
  { subst both. rewrite float_repeat_method_add.
    destruct (repeat_method (Z.to_nat n1) update k) as [[e|[]] k'];
      [discriminate|]. injection Hrun as _ <-. reflexivity. }
  assert (E1 : k1 = snd (repeat_method (Z.to_nat n1) update k)).
  { destruct (repeat_method (Z.to_nat n1) update k) as [[e|[]] k'];
      [discriminate|]. injection Hrun as _ <-. reflexivity. }
  rewrite <- E1 in Hk1.
  assert (Hf1 : fitted k1 = true) by (rewrite Hk1; exact Hf).
  assert (Ha1 : accuracy k1 = accuracy k) by (rewrite Hk1; reflexivity).
  assert (Hl1 : length (concentrations k1) = length (concentrations k))
    by (rewrite Hk1; exact Hlen).
  rewrite <- Ha1 in Hq2.
  pose proof (calculate_run pow time2 checkpoints2 policy k1 q2 n2 Hf1 Hq2 Hn2)
    as H2.
  rewrite Hl1 in H2. fold update in H2. rewrite <- Hboth in H2.
  split; [exact E1|]. rewrite H2.
  destruct both as [[e|[]] k2]; cbn [fst snd].
  - split; [reflexivity|]. split; [intros e'; split; congruence|].
    intros rows2 H. discriminate H.
  - split; [reflexivity|]. split; [intros e'; split; congruence|].
    intros rows2 H. split; [reflexivity|]. injection H as <-.
    rewrite app_comm_cons. apply last_snoc.
Qed.

End FloatFurther.

(** ** Binary floating point: the theorems at concrete calculators *)

Section FloatExamples.

Import Binary64.
Local Open Scope float_scope.

(** A conjunction of closed equations, each settled by evaluation. *)
Ltac evaluate :=
  repeat (match goal with |- _ /\ _ => split end); vm_compute; reflexivity.

Lemma step_delta_in_order_witness :
  bound blocked = true
  /\ extent sample_pow blocked 0 Forward = extent_of sample_pow blocked 0 Forward
  /\ extent sample_pow blocked 0 Backward = Ok (Real (0.5 * 0.5 * 4))
  /\ exists delta,
       calculate_concentration_change sample_pow 3 blocked = Ok delta
       /\ length delta = 3%nat
       /\ delta !! 2%nat = Some (Real (0 + (0 - 1) * 1)).
Proof.
  split; [vm_compute; reflexivity|].
  destruct (step_delta_in_order sample_pow blocked eq_refl) as [H1 H2].
  split; [apply (H1 0%nat Forward); cbn; lia|].
  split.
  - destruct (H1 0%nat Backward ltac:(cbn; lia)) as [_ H].
    apply (H [4]). repeat constructor.
  - change (extents_of sample_pow blocked (seq 0 (number_of_reactions blocked)))
      with (Ok [(Real 0, Real 1)] : result (list (number * number))) in H2.
    destruct H2 as (delta & Hd & L & E).
    exists delta. split; [exact Hd|]. split; [exact L|].
    apply (E 2%nat). cbn. lia.
Defined.

(** The product formula alone does not give the extent when a base is 0
    under a negative exponent (the code yields 0 where the formula has no
    value), and the step-delta computation of a bound calculator need not
    return a vector: a power that is out of range raises. *)
Lemma product_formula_fails :
  bound blocked = true
  /\ side_factors blocked 0 Forward = [(0, -1); (2, 1)]
  /\ extent sample_pow blocked 0 Forward = Ok (Real 0)
  /\ formula_extent sample_pow blocked 0 Forward = Raise ZeroDivisionError
  /\ bound overflowing = true
  /\ calculate_concentration_change sample_pow 3 overflowing
     = Raise OverflowError.
Proof. evaluate. Qed.

Lemma zero_guard_skips_power_witness :
  side_factors blocked 0 Forward !! 0%nat = Some (0, -1)
  /\ exists x,
       extent sample_pow blocked 0 Forward = Ok (Real x) /\ (x =? 0) = true.
Proof.
  split; [vm_compute; reflexivity|].
  pose proof (zero_guard_skips_power sample_pow blocked 0%nat Forward 0%nat 0 (-1)
                eq_refl ltac:(cbn; lia) eq_refl eq_refl eq_refl) as H.
  cbv zeta in H. destruct H as (_ & _ & H). apply H.
  - constructor.
  - constructor; [|constructor]. right. exists 2. split; reflexivity.
Defined.

(** A side with a zero concentration under a negative exponent does not
    keep the step-delta computation from raising: the factors after it
    are still raised to their powers. *)
Lemma guarded_side_raises :
  bound overflowing = true
  /\ side_factors overflowing 0 Forward = [(0, -1); (1e200, 2)]
  /\ singular 0 (-1) = true
  /\ extent sample_pow overflowing 0 Forward = Raise OverflowError
  /\ calculate_concentration_change sample_pow 3 overflowing
     = Raise OverflowError.
Proof. evaluate. Qed.

Lemma update_count_of_run_witness :
  py_int (0.9999999999999999 / accuracy decay + 1) = Ok 2%Z
  /\ snd (calculate sample_pow 0.9999999999999999 [] "SetToZero" decay)
     = snd (repeat_method 2 (step_update sample_pow "SetToZero" 2) decay)
  /\ fst (repeat_method 1 (step_update sample_pow "SetToZero" 2) decay) = Ok tt.
Proof.
  split; [vm_compute; reflexivity|].
  pose proof (update_count_of_run sample_pow 0.9999999999999999 [] "SetToZero"
                decay 0.9999999999999999 2 eq_refl eq_refl eq_refl) as H.
  cbv zeta in H. destruct H as (_ & H1 & _ & H2 & _).
  split; [exact H1|]. destruct (H2 eq_refl) as [H3 _].
  apply (H3 1%nat). cbn. lia.
Defined.

(** The number of updates is not [floor (duration / step_size) + 1]: with
    duration 0.9999999999999999 and step 1 the run makes two updates, where
    the floor of the quotient (of the rounded one and of the exact one) is
    0; with duration 1 and step 0.1 it makes eleven, where the floor of the
    exact quotient of the two floats is 9. *)
Lemma update_count_differs_from_floor :
  (0 <=? 0.9999999999999999) = true /\ (0 <? accuracy decay) = true
  /\ py_div 0.9999999999999999 (accuracy decay) = Ok 0.9999999999999999
  /\ py_int (0.9999999999999999 + 1) = Ok 2%Z
  /\ (Qfloor (exact 0.9999999999999999) + 1 = 1)%Z
  /\ (Qfloor (exact 0.9999999999999999 / exact (accuracy decay)) + 1 = 1)%Z
  /\ concentrations
       (snd (calculate sample_pow 0.9999999999999999 [] "SetToZero" decay))
     = [0.25; 0.75]
  /\ concentrations
       (snd (repeat_method 2 (step_update sample_pow "SetToZero" 2) decay))
     = [0.25; 0.75]
  /\ concentrations
       (snd (repeat_method 1 (step_update sample_pow "SetToZero" 2) decay))
     = [0.5; 0.5]
  /\ py_int (1 / accuracy still_tenth + 1) = Ok 11%Z
  /\ (Qfloor (exact 1 / exact (accuracy still_tenth)) + 1 = 10)%Z.
Proof. evaluate. Qed.

Lemma checkpoint_recorded_in_interval_witness :
  calculate sample_pow 1 [0.5] "SetToZero" still_tenth
  = (Ok [Header ["A"%string; "B"%string]; Snapshot 0.5 [1; 2];
         Snapshot 1 [1; 2]], still_tenth)
  /\ recorded sample_pow "SetToZero" [0.5] still_tenth 0 11
     = recorded_at sample_pow "SetToZero" [0.5] still_tenth 5
  /\ (exists i, (i < 11)%nat /\ In 0.5 [0.5]
        /\ in_interval (tick_time (accuracy still_tenth) i)
             (accuracy still_tenth) 0.5 = true
        /\ [1; 2]
           = concentrations (state_after sample_pow "SetToZero" (S i) still_tenth)).
Proof.
  pose proof (checkpoint_recorded_in_interval sample_pow 1 [0.5] "SetToZero"
                still_tenth 10 11 eq_refl eq_refl eq_refl) as H.
  destruct H as (H0 & _ & _ & H).
  split; [rewrite H0; vm_compute; reflexivity|].
  split; [vm_compute; reflexivity|].
  apply (proj1 (H 0.5 [1; 2])). vm_compute. left. reflexivity.
Defined.

(** A checkpoint time outside [[0, duration)] is recorded: with step 1
    and duration 1 the second iteration records 1.5; and so is one outside
    [[0, (floor (duration / step) + 1) * step)]: with duration
    0.9999999999999999 the run has a second iteration, too. *)
Lemma checkpoint_past_duration_is_recorded :
  calculate sample_pow 1 [1.5] "SetToZero" still
  = (Ok [Header ["A"%string; "B"%string]; Snapshot 1.5 [1; 2];
         Snapshot 1 [1; 2]], still)
  /\ (1.5 <? 1) = false
  /\ calculate sample_pow 0.9999999999999999 [1.5] "SetToZero" still
     = (Ok [Header ["A"%string; "B"%string]; Snapshot 1.5 [1; 2];
            Snapshot 0.9999999999999999 [1; 2]], still)
  /\ (Qfloor (exact 0.9999999999999999 / exact (accuracy still)) + 1 = 1)%Z
  /\ (1.5 <? 1 * accuracy still) = false.
Proof. evaluate. Qed.

(** With a step of 0.1 the checkpoint 0.5 is recorded by iteration 5,
    whose [t] is the rounded sum 0.1 + 0.1 + 0.1 + 0.1 + 0.1 = 0.5, although
    the exact quotient of the two floats is below 5. *)
Example checkpoint_half_in_iteration_5 :
  tick_time 0.1 5 = 0.5
  /\ recorded_at sample_pow "SetToZero" [0.5] still_tenth 5
     = [Snapshot 0.5 [1; 2]]
  /\ recorded_at sample_pow "SetToZero" [0.5] still_tenth 4 = []
  /\ Qfloor (exact 0.5 / exact 0.1) = 4%Z.
Proof. evaluate. Qed.

Lemma result_rows_in_order_witness :
  calculate sample_pow 1 [0.55; 0.5] "SetToZero" still_tenth
  = (Ok [Header ["A"%string; "B"%string]; Snapshot 0.55 [1; 2];
         Snapshot 0.5 [1; 2]; Snapshot 1 [1; 2]], still_tenth)
  /\ StronglySorted Nat.le
       (map fst (recorded_numbered sample_pow "SetToZero" [0.55; 0.5]
                   still_tenth 0 11))
  /\ recorded_numbered sample_pow "SetToZero" [0.55; 0.5] still_tenth 0 11
     = [(5%nat, Snapshot 0.55 [1; 2]); (5%nat, Snapshot 0.5 [1; 2])].
Proof.
  pose proof (result_rows_in_order sample_pow 1 [0.55; 0.5] "SetToZero"
                still_tenth 10 11 eq_refl eq_refl eq_refl) as H.
  cbv zeta in H. destruct H as (H0 & H1 & _).
  split; [rewrite H0; vm_compute; reflexivity|].
  split; [exact H1|]. vm_compute. reflexivity.
Defined.

(** The recorded checkpoints do not come in ascending time order: the
    rows of one iteration follow [checkpoint_time], and the final pair
    carries the duration, which the rows need not stay below. *)
Lemma recorded_times_not_ascending :
  calculate sample_pow 0 [0.7; 0.2] "SetToZero" still
  = (Ok [Header ["A"%string; "B"%string]; Snapshot 0.7 [1; 2];
         Snapshot 0.2 [1; 2]; Snapshot 0 [1; 2]], still)
  /\ (0.7 <=? 0.2) = false
  /\ (0.2 <=? 0) = false.
Proof. evaluate. Qed.

Lemma clamp_nonnegative_after_update_witness :
  concentrations draining = [1; -1]
  /\ step_update sample_pow "SetToZero" 2 draining
     = (Ok tt, set_concentrations draining [0; 9])
  /\ Forall (fun x => (0 <=? x) = true)
       (concentrations (set_concentrations draining [0; 9]))
  /\ Forall (fun x => (0 <=? x) = true)
       (concentrations
          (snd (repeat_method 3 (step_update sample_pow "SetToZero" 2)
                  (set_concentrations draining [0; 9])))).
Proof.
  split; [vm_compute; reflexivity|]. split; [vm_compute; reflexivity|].
  pose proof (clamp_nonnegative_after_update sample_pow draining) as H.
  cbv zeta in H. destruct H as [H _].
  destruct (H (set_concentrations draining [0; 9])
              ltac:(vm_compute; reflexivity)) as (_ & H1 & H2).
  split; [exact H1|]. exact (H2 3%nat).
Defined.

(** An update that raises does not reach every entry: here line 132
    raises [TypeError] on the complex candidate of the second compound,
    after the first compound was set to 0, and the negative concentration
    of the second stays. *)
Example clamp_update_raises :
  concentrations rooted = [-2; -1; 3]
  /\ calculate_concentration_change sample_pow 3 rooted
     = Ok [Real 0; Complex; Complex]
  /\ step_update sample_pow "SetToZero" 3 rooted
     = (Raise TypeError, set_concentrations rooted [0; -1; 3]).
Proof. evaluate. Qed.

Lemma nonpositive_count_no_update_witness :
  py_int (-1.5 / accuracy decay + 1) = Ok 0%Z
  /\ calculate sample_pow (-1.5) [0.5] "Clamp" decay
     = (Ok [Header ["A"%string; "B"%string]; Snapshot (-1.5) [1; 0]], decay).
Proof.
  split; [vm_compute; reflexivity|].
  apply (nonpositive_count_no_update sample_pow (-1.5) [0.5] "Clamp" decay
           (-1.5) 0 eq_refl eq_refl eq_refl).
  lia.
Defined.

(** A negative duration does not by itself mean no iteration:
    [-1e-17 / 1.0 + 1] rounds to 1.0, and the run makes one update. *)
Example negative_duration_one_update :
  (-1e-17 <? 0) = true
  /\ py_int (-1e-17 / accuracy decay + 1) = Ok 1%Z
  /\ concentrations (snd (calculate sample_pow (-1e-17) [] "SetToZero" decay))
     = [0.5; 0.5].
Proof. evaluate. Qed.

Lemma freeze_keeps_sign_of_entries_witness :
  concentrations draining = [1; -1]
  /\ concentrations
       (snd (repeat_method 3 (step_update sample_pow "DoNotChange" 2) draining))
     = [181; 9]
  /\ Forall2 (fun c x => ((0 <? c) = true -> (0 <? x) = true)
                         /\ ((0 <=? c) = true -> (0 <=? x) = true))
       (concentrations draining)
       (concentrations
          (snd (repeat_method 3
                  (step_update sample_pow "DoNotChange"
                     (length (concentrations draining))) draining))).
Proof.
  split; [vm_compute; reflexivity|]. split; [vm_compute; reflexivity|].
  apply (freeze_keeps_sign_of_entries sample_pow draining 3).
Defined.

Lemma runs_one_after_the_other_witness :
  calculate sample_pow 1 [] "SetToZero" decay
  = (Ok [Header ["A"%string; "B"%string]; Snapshot 1 [0.25; 0.75]],
     set_concentrations decay [0.25; 0.75])
  /\ snd (calculate sample_pow 1 [] "SetToZero"
            (set_concentrations decay [0.25; 0.75]))
     = snd (repeat_method 4 (step_update sample_pow "SetToZero" 2) decay)
  /\ concentrations
       (snd (repeat_method 4 (step_update sample_pow "SetToZero" 2) decay))
     = [0.0625; 0.9375].
Proof.
  split; [vm_compute; reflexivity|].
  pose proof (runs_one_after_the_other sample_pow 1 1 [] [] "SetToZero" decay
                1 1 2 2
                [Header ["A"%string; "B"%string]; Snapshot 1 [0.25; 0.75]]
                (set_concentrations decay [0.25; 0.75])
                eq_refl eq_refl eq_refl eq_refl eq_refl
                ltac:(vm_compute; reflexivity)) as H.
  cbv zeta in H. destruct H as (_ & H & _).
  split; [exact H|vm_compute; reflexivity].
Defined.

(** Two runs of duration 1 make four updates, one run of duration 2
    makes three. *)
Example two_runs_are_not_one :
  py_int (2 / accuracy decay + 1) = Ok 3%Z
  /\ concentrations (snd (calculate sample_pow 2 [] "SetToZero" decay))
     = [0.125; 0.875].
Proof. evaluate. Qed.

End FloatExamples.
